(** * Career advisor: scoring engine

    A shallow embedding of [career_advisor/models.py] and
    [career_advisor/advisor.py], and the properties of the scoring engine.

    Modelling conventions.
    - Python [str] is [string]; [str.lower] is a parameter of the
      development (class [Lower]), so general statements hold for whatever
      lowercasing function is plugged in.  Concrete scenarios use
      [ascii_lower], which agrees with [str.lower] on the ASCII letters.
    - Python numbers (the scores are [float], the catalog thresholds [int])
      are idealised as exact rationals [Q]; numeric equality is [==].  The
      sums, the quotient and the rounding of the code are rounded float
      operations, so the statements below are limited to what does not
      depend on exact arithmetic: order, bounds, equal inputs giving equal
      results, and values computed on explicit inputs.
    - A Python [dict] is an insertion-ordered association list ([PyDict]).
    - The [.1f] format of [suggest_improvements] is a parameter too (class
      [Format1f]); [decimal_1f] renders the exact value.
    - Mutating methods are written in state-passing style; [analyze_profile]
      is written in a small state monad over the two objects it can reach. *)

From Stdlib Require Import QArith Qround Qminmax Lqa Lia.
From Stdlib Require Import String Ascii List Bool Sorted Permutation.
From Stdlib Require Import Qabs DecimalString.
Import ListNotations.

Open Scope string_scope.
Open Scope Q_scope.

(** ** Strings *)

(** [str.lower], abstractly. *)
Class Lower := lower : string -> string.

Definition ascii_lower_char (c : ascii) : ascii :=
  let n := nat_of_ascii c in
  if Nat.leb 65 n && Nat.leb n 90 then ascii_of_nat (n + 32) else c.

Fixpoint ascii_lower (s : string) : string :=
  match s with
  | EmptyString => EmptyString
  | String c s' => String (ascii_lower_char c) (ascii_lower s')
  end.

(** ** Python dictionaries: insertion-ordered, keyed by strings *)

Module PyDict.
Section Dict.
Context {V : Type}.

Definition t := list (string * V).

Definition empty : t := [].

  (** [d[k]] / [k in d] *)
Fixpoint get (d : t) (k : string) : option V :=
    match d with
    | [] => None
    | (k', v) :: d' => if String.eqb k' k then Some v else get d' k
    end.

Definition contains (d : t) (k : string) : bool :=
    match get d k with Some _ => true | None => false end.

  (** [d[k] = v]: an existing key keeps its position, a new key goes last. *)
Fixpoint set (d : t) (k : string) (v : V) : t :=
    match d with
    | [] => [(k, v)]
    | (k', v') :: d' =>
        if String.eqb k' k then (k', v) :: d' else (k', v') :: set d' k v
    end.

Definition items (d : t) : list (string * V) := d.
Definition keys (d : t) : list string := map fst d.
Definition values (d : t) : list V := map snd d.

  (** A dictionary literal or comprehension: the pairs are stored in order. *)
Definition of_list (l : list (string * V)) : t :=
    fold_left (fun d kv => set d (fst kv) (snd kv)) l empty.

  (** [{**d1, **d2}] *)
Definition merge (d1 d2 : t) : t :=
    fold_left (fun d kv => set d (fst kv) (snd kv)) d2 d1.
End Dict.
Arguments t : clear implicits.
End PyDict.

(** ** Numbers *)

(** [x < y] as a test. *)
Definition Qltb (x y : Q) : bool := negb (Qle_bool y x).

(** Nearest integer, ties to the even one. *)
Definition round_half_even (x : Q) : Z :=
  let f := Qfloor x in
  match Qcompare (x - inject_Z f) (1 # 2) with
  | Lt => f
  | Gt => (f + 1)%Z
  | Eq => if Z.even f then f else (f + 1)%Z
  end.

(** [round(x, 2)] *)
Definition round2 (x : Q) : Q :=
  Qred (inject_Z (round_half_even (x * 100)) / 100).

(** ** [list.sort(key=..., reverse=True)]

    The sort is stable also with [reverse=True]; a stable sort has one
    possible result, which insertion from the right computes. *)

Section Sort.
Context {A : Type} (key : A -> Q).

Fixpoint insert_desc (x : A) (l : list A) : list A :=
    match l with
    | [] => [x]
    | y :: l' =>
        if Qle_bool (key y) (key x) then x :: l else y :: insert_desc x l'
    end.

Definition sort_desc (l : list A) : list A := fold_right insert_desc [] l.
End Sort.

(** ** models.py *)

(** A raised exception, with its message. *)
Inductive exn := ValueError (msg : string) | KeyError (key : string).

Module Competency.
Record t := mk { name : string; kind : string; score : Q }.

Section Init.
Context {L : Lower}.

    (** [Competency(name, kind, score)], that is [__post_init__]. *)
Definition make (name kind : string) (score : Q) : exn + t :=
      let kind := lower kind in
      if negb (String.eqb kind "tecnica" || String.eqb kind "comportamental")
      then inl (ValueError
                  "Tipo de competência deve ser 'tecnica' ou 'comportamental'.")
      else if negb (Qle_bool 0 score && Qle_bool score 10)
      then inl (ValueError "A nota da competência deve estar entre 0 e 10.")
      else inr (mk name kind score).
End Init.
End Competency.

Module Profile.
Record t := mk {
    name : string;
    technical_skills : PyDict.t Competency.t;
    behavioral_skills : PyDict.t Competency.t
  }.

  (** [Profile(name)] *)
Definition new (name : string) : t := mk name PyDict.empty PyDict.empty.

Section Methods.
Context {L : Lower}.

Definition add_competency (self : t) (competency : Competency.t) : t :=
      let key := lower (Competency.name competency) in
      if String.eqb (Competency.kind competency) "tecnica"
      then mk (name self)
              (PyDict.set (technical_skills self) key competency)
              (behavioral_skills self)
      else mk (name self)
              (technical_skills self)
              (PyDict.set (behavioral_skills self) key competency).

Definition list_competencies (self : t) : list Competency.t :=
      (PyDict.values (technical_skills self)
         ++ PyDict.values (behavioral_skills self))%list.

Definition get_score (self : t) (name : string) : Q :=
      let key := lower name in
      match PyDict.get (technical_skills self) key with
      | Some c => Competency.score c
      | None =>
          match PyDict.get (behavioral_skills self) key with
          | Some c => Competency.score c
          | None => 0
          end
      end.
End Methods.
End Profile.

Module Career.
Record t := mk {
    name : string;
    required_competencies : PyDict.t (string * Q)
  }.

  (** The generator, as the finite sequence it yields. *)
Definition required_items (self : t) : list (string * string * Q) :=
    map (fun '(comp_name, (kind, score)) => (comp_name, kind, score))
        (PyDict.items (required_competencies self)).
End Career.

(** [competency.score = score].  [Competency] is declared with a plain
    [@dataclass], not a frozen one, so its fields can be assigned, and
    [__post_init__], which itself assigns [self.kind], runs when the object
    is built and not on assignment. *)
Definition set_score (c : Competency.t) (score : Q) : Competency.t :=
  Competency.mk (Competency.name c) (Competency.kind c) score.

(** ** advisor.py *)

Module Recommendation.
Record t := mk {
    profile : Profile.t;
    career : Career.t;
    match_percentage : Q;
    missing_competencies : PyDict.t Q
  }.
End Recommendation.

Module CareerAdvisor.
Record t := mk {
    profiles : PyDict.t Profile.t;
    careers : PyDict.t Career.t
  }.

  (** [CareerAdvisor()] *)
Definition new : t := mk PyDict.empty PyDict.empty.

Section Methods.
Context {L : Lower}.

Definition add_profile (self : t) (profile : Profile.t) : t :=
      mk (PyDict.set (profiles self) (lower (Profile.name profile)) profile)
         (careers self).

Definition get_profile (self : t) (name : string) : option Profile.t :=
      PyDict.get (profiles self) (lower name).

Definition add_career (self : t) (career : Career.t) : t :=
      mk (profiles self)
         (PyDict.set (careers self) (lower (Career.name career)) career).

Definition list_careers (self : t) : list Career.t :=
      PyDict.values (careers self).

    (** [setdefault], then the profile found or created is updated in
        place; the updated profile is returned with the new registry. *)
Definition add_competency_to_profile
        (self : t) (profile_name : string) (competency : Competency.t)
        : Profile.t * t :=
      let key := lower profile_name in
      let profile :=
        match PyDict.get (profiles self) key with
        | Some p => p
        | None => Profile.new profile_name
        end in
      let profile := Profile.add_competency profile competency in
      (profile, mk (PyDict.set (profiles self) key profile) (careers self)).
End Methods.
End CareerAdvisor.

(** *** The state [analyze_profile] runs in

    The call can reach two mutable objects: the advisor ([self]) and the
    profile it is given. *)

Record World := mkWorld {
  self_ : CareerAdvisor.t;
  profile_ : Profile.t
}.

Definition M (A : Type) : Type := World -> A * World.

Definition ret {A} (a : A) : M A := fun w => (a, w).

Definition bind {A B} (m : M A) (k : A -> M B) : M B :=
  fun w => let (a, w') := m w in k a w'.

Definition gets {A} (f : World -> A) : M A := fun w => (f w, w).

Notation "x <- m ;; k" := (bind m (fun x => k))
  (at level 61, m at next level, right associativity).
Notation "' pat <- m ;; k" := (bind m (fun x => match x with pat => k end))
  (at level 61, pat pattern, m at next level, right associativity).

(** A [for] loop whose body updates the loop's local variables [acc]. *)
Fixpoint for_each {A B} (l : list A) (acc : B) (body : B -> A -> M B) : M B :=
  match l with
  | [] => ret acc
  | x :: l' => acc' <- body acc x ;; for_each l' acc' body
  end.

Section Analysis.
Context {L : Lower}.

  (** [for comp_name, kind, required_score in career.required_items(): ...]
      over the locals [missing], [total], [achieved]. *)
Definition score_requirement
      (locals : PyDict.t Q * Q * Q) (item : string * string * Q)
      : M (PyDict.t Q * Q * Q) :=
    let '(missing, total, achieved) := locals in
    let '(comp_name, kind, required_score) := item in
    let total := total + required_score in
    current_score <- gets (fun w => Profile.get_score (profile_ w) comp_name) ;;
    let achieved := achieved + Qmin current_score required_score in
    let missing :=
      if Qltb current_score required_score
      then PyDict.set missing comp_name (required_score - current_score)
      else missing in
    ret (missing, total, achieved).

  (** The body of [for career in self.careers.values(): ...] over the
      local [results]. *)
Definition score_career
      (results : list Recommendation.t) (career : Career.t)
      : M (list Recommendation.t) :=
    ' (missing, total, achieved) <-
        for_each (Career.required_items career) (PyDict.empty, 0, 0)
                 score_requirement ;;
    let match_ :=
      if negb (Qeq_bool total 0) then achieved / total * 100 else 0 in
    profile <- gets profile_ ;;
    ret (results
           ++ [Recommendation.mk profile career (round2 match_) missing])%list.

Definition analyze_profile : M (list Recommendation.t) :=
    careers <- gets (fun w => PyDict.values (CareerAdvisor.careers (self_ w))) ;;
    results <- for_each careers [] score_career ;;
    ret (sort_desc Recommendation.match_percentage results).
End Analysis.

(** *** [build_default_advisor] *)

Module Catalog.
Definition technical_skills : PyDict.t (string * Q) :=
    PyDict.of_list [
      ("python", ("tecnica", 9));
      ("estatistica aplicada", ("tecnica", 8));
      ("machine learning", ("tecnica", 9));
      ("deep learning", ("tecnica", 8));
      ("sql", ("tecnica", 8));
      ("bancos nosql", ("tecnica", 7));
      ("data visualization", ("tecnica", 7));
      ("power bi", ("tecnica", 6));
      ("spark", ("tecnica", 7));
      ("hadoop", ("tecnica", 6));
      ("big data architecture", ("tecnica", 8));
      ("cloud architecture", ("tecnica", 9));
      ("kubernetes", ("tecnica", 8));
      ("docker", ("tecnica", 8));
      ("linux administration", ("tecnica", 7));
      ("redes corporativas", ("tecnica", 7));
      ("seguranca redes", ("tecnica", 9));
      ("criptografia aplicada", ("tecnica", 8));
      ("automacao testes", ("tecnica", 7));
      ("desenvolvimento backend", ("tecnica", 8));
      ("desenvolvimento frontend", ("tecnica", 7));
      ("desenvolvimento mobile", ("tecnica", 7));
      ("devops", ("tecnica", 9));
      ("ci cd", ("tecnica", 8));
      ("infraestrutura como codigo", ("tecnica", 8));
      ("terraform", ("tecnica", 7));
      ("ansible", ("tecnica", 6));
      ("monitoramento observabilidade", ("tecnica", 7));
      ("testes automatizados api", ("tecnica", 7));
      ("sistemas embarcados", ("tecnica", 6));
      ("robotica", ("tecnica", 6));
      ("iot", ("tecnica", 7));
      ("analise de logs", ("tecnica", 6));
      ("programacao funcional", ("tecnica", 7));
      ("java", ("tecnica", 7));
      ("csharp", ("tecnica", 7));
      ("go", ("tecnica", 6));
      ("rust", ("tecnica", 6));
      ("nodejs", ("tecnica", 7));
      ("react", ("tecnica", 7));
      ("flutter", ("tecnica", 6));
      ("swift", ("tecnica", 6));
      ("power platform", ("tecnica", 6));
      ("integracao sistemas", ("tecnica", 7));
      ("arquitetura microservicos", ("tecnica", 8));
      ("modelagem dados", ("tecnica", 8));
      ("governanca dados", ("tecnica", 7));
      ("analise preditiva", ("tecnica", 8));
      ("processamento linguagem natural", ("tecnica", 8));
      ("visao computacional", ("tecnica", 8));
      ("realidade aumentada", ("tecnica", 6));
      ("simulacao digital", ("tecnica", 6))
    ].

Definition behavioral_skills : PyDict.t (string * Q) :=
    PyDict.of_list [
      ("comunicacao", ("comportamental", 8));
      ("storytelling", ("comportamental", 7));
      ("pensamento critico", ("comportamental", 8));
      ("resolucao de problemas", ("comportamental", 9));
      ("colaboracao", ("comportamental", 8));
      ("lideranca", ("comportamental", 8));
      ("negociacao", ("comportamental", 7));
      ("empatia", ("comportamental", 8));
      ("adaptabilidade", ("comportamental", 8));
      ("criatividade", ("comportamental", 8));
      ("proatividade", ("comportamental", 8));
      ("gestao do tempo", ("comportamental", 7));
      ("gestao de conflitos", ("comportamental", 7));
      ("tomada de decisao", ("comportamental", 8));
      ("foco no cliente", ("comportamental", 8));
      ("orientacao a resultados", ("comportamental", 8));
      ("organizacao", ("comportamental", 7));
      ("detalhismo", ("comportamental", 7));
      ("resiliencia", ("comportamental", 8));
      ("inteligencia emocional", ("comportamental", 9));
      ("visao estrategica", ("comportamental", 8));
      ("mentoria", ("comportamental", 7));
      ("aprendizado continuo", ("comportamental", 8));
      ("curiosidade", ("comportamental", 7));
      ("networking", ("comportamental", 6));
      ("responsabilidade", ("comportamental", 8));
      ("confiabilidade", ("comportamental", 8));
      ("influencia", ("comportamental", 7));
      ("coachabilidade", ("comportamental", 7));
      ("etica profissional", ("comportamental", 9));
      ("diplomacia", ("comportamental", 7));
      ("paciencia", ("comportamental", 7));
      ("autocontrole", ("comportamental", 8));
      ("pensamento sistemico", ("comportamental", 8));
      ("planejamento", ("comportamental", 7));
      ("capacidade analitica", ("comportamental", 8));
      ("iniciativa", ("comportamental", 8));
      ("senso de urgencia", ("comportamental", 7));
      ("colaboracao remota", ("comportamental", 7));
      ("abertura a feedbacks", ("comportamental", 8));
      ("comunicacao escrita", ("comportamental", 7));
      ("comunicacao visual", ("comportamental", 6));
      ("apresentacao", ("comportamental", 7));
      ("facilitacao de workshops", ("comportamental", 7));
      ("gestao de stakeholders", ("comportamental", 8));
      ("mediacao", ("comportamental", 6));
      ("escuta ativa", ("comportamental", 8));
      ("motivacao de equipes", ("comportamental", 8));
      ("foco na qualidade", ("comportamental", 8));
      ("orientacao a dados", ("comportamental", 7));
      ("gestao de riscos", ("comportamental", 7));
      ("pensamento empreendedor", ("comportamental", 7))
    ].

Definition careers_data : list (string * list string) := [
      ("Cientista de Dados",
       ["python";
        "estatistica aplicada";
        "machine learning";
        "data visualization";
        "pensamento critico";
        "comunicacao";
        "orientacao a dados"]);
      ("Arquiteto de Soluções em Nuvem",
       ["cloud architecture";
        "arquitetura microservicos";
        "kubernetes";
        "infraestrutura como codigo";
        "lideranca";
        "negociacao";
        "visao estrategica"]);
      ("Especialista em Cibersegurança",
       ["seguranca redes";
        "criptografia aplicada";
        "linux administration";
        "resolucao de problemas";
        "detalhismo";
        "etica profissional"]);
      ("Engenheiro de Machine Learning",
       ["python";
        "machine learning";
        "deep learning";
        "analise preditiva";
        "processamento linguagem natural";
        "aprendizado continuo";
        "orientacao a resultados"]);
      ("Engenheiro de Dados",
       ["sql";
        "modelagem dados";
        "hadoop";
        "spark";
        "governanca dados";
        "comunicacao";
        "planejamento"]);
      ("Analista de Business Intelligence",
       ["power bi";
        "data visualization";
        "sql";
        "storytelling";
        "comunicacao";
        "foco no cliente"]);
      ("Engenheiro DevOps",
       ["devops";
        "ci cd";
        "kubernetes";
        "docker";
        "monitoramento observabilidade";
        "colaboracao";
        "proatividade";
        "gestao de riscos"]);
      ("Engenheiro de Software Backend",
       ["desenvolvimento backend";
        "java";
        "modelagem dados";
        "testes automatizados api";
        "resolucao de problemas";
        "comunicacao escrita"]);
      ("Desenvolvedor Full Stack",
       ["desenvolvimento frontend";
        "desenvolvimento backend";
        "react";
        "nodejs";
        "comunicacao";
        "adaptabilidade";
        "organizacao"]);
      ("Engenheiro Mobile",
       ["desenvolvimento mobile";
        "flutter";
        "swift";
        "react";
        "criatividade";
        "senso de urgencia";
        "comunicacao visual"]);
      ("Product Manager Digital",
       ["data visualization";
        "visao estrategica";
        "gestao de stakeholders";
        "comunicacao";
        "negociacao";
        "orientacao a resultados";
        "planejamento"]);
      ("Scrum Master",
       ["integracao sistemas";
        "facilitacao de workshops";
        "colaboracao";
        "mediacao";
        "gestao do tempo";
        "adaptabilidade";
        "abertura a feedbacks"]);
      ("UX Researcher",
       ["data visualization";
        "empatia";
        "escuta ativa";
        "storytelling";
        "curiosidade";
        "pensamento critico"]);
      ("UI Designer",
       ["desenvolvimento frontend";
        "comunicacao visual";
        "criatividade";
        "detalhismo";
        "colaboracao";
        "orientacao a resultados"]);
      ("Analista de Suporte N2",
       ["redes corporativas";
        "linux administration";
        "analise de logs";
        "comunicacao";
        "paciencia";
        "responsabilidade"]);
      ("Engenheiro de Redes",
       ["redes corporativas";
        "seguranca redes";
        "monitoramento observabilidade";
        "infraestrutura como codigo";
        "comunicacao";
        "gestao de riscos"]);
      ("Especialista em Observabilidade",
       ["monitoramento observabilidade";
        "analise de logs";
        "automacao testes";
        "comunicacao escrita";
        "pensamento sistemico";
        "orientacao a dados"]);
      ("Arquiteto de Microserviços",
       ["arquitetura microservicos";
        "desenvolvimento backend";
        "nodejs";
        "kubernetes";
        "lideranca";
        "negociacao";
        "planejamento"]);
      ("Engenheiro de IoT",
       ["iot";
        "redes corporativas";
        "sistemas embarcados";
        "robotica";
        "resolucao de problemas";
        "criatividade";
        "curiosidade"]);
      ("Cientista de Visão Computacional",
       ["visao computacional";
        "python";
        "deep learning";
        "analise preditiva";
        "comunicacao";
        "pensamento critico"]);
      ("Especialista em Processamento de Linguagem Natural",
       ["processamento linguagem natural";
        "python";
        "machine learning";
        "storytelling";
        "comunicacao";
        "orientacao a dados";
        "criatividade"]);
      ("Consultor de Transformação Digital",
       ["cloud architecture";
        "integracao sistemas";
        "power platform";
        "visao estrategica";
        "comunicacao";
        "orientacao a resultados";
        "gestao de stakeholders"]);
      ("Analista de Governança de Dados",
       ["governanca dados";
        "modelagem dados";
        "data visualization";
        "comunicacao";
        "etica profissional";
        "orientacao a dados";
        "planejamento"]);
      ("Especialista em Automação Industrial",
       ["automacao testes";
        "sistemas embarcados";
        "robotica";
        "iot";
        "proatividade";
        "responsabilidade";
        "detalhismo"]);
      ("Engenheiro de Segurança Aplicada",
       ["seguranca redes";
        "criptografia aplicada";
        "desenvolvimento backend";
        "testes automatizados api";
        "resolucao de problemas";
        "orientacao a resultados";
        "etica profissional"]);
      ("Agile Coach",
       ["devops";
        "facilitacao de workshops";
        "lideranca";
        "mentoria";
        "aprendizado continuo";
        "empatia";
        "planejamento";
        "abertura a feedbacks"]);
      ("Engenheiro de Realidade Aumentada",
       ["realidade aumentada";
        "visao computacional";
        "desenvolvimento mobile";
        "criatividade";
        "comunicacao visual";
        "resolucao de problemas"]);
      ("Especialista em Power Platform",
       ["power platform";
        "integracao sistemas";
        "desenvolvimento backend";
        "comunicacao";
        "foco no cliente";
        "orientacao a resultados";
        "planejamento"])
    ].

(** [{**technical_skills, **behavioral_skills}] *)
Definition skills_catalog : PyDict.t (string * Q) :=
  PyDict.merge technical_skills behavioral_skills.

Section Build.
Context {L : Lower}.

(** [{skill: skills_catalog[skill] for skill in competencies}]; a skill
    absent from the catalog raises [KeyError]. *)
Fixpoint required_of (competencies : list string)
    (d : PyDict.t (string * Q)) : exn + PyDict.t (string * Q) :=
  match competencies with
  | [] => inr d
  | skill :: rest =>
      match PyDict.get skills_catalog skill with
      | Some entry => required_of rest (PyDict.set d skill entry)
      | None => inl (KeyError skill)
      end
  end.

(** [for name, competencies in careers_data: advisor.add_career(...)] *)
Fixpoint add_careers (data : list (string * list string))
    (advisor : CareerAdvisor.t) : exn + CareerAdvisor.t :=
  match data with
  | [] => inr advisor
  | (name, competencies) :: rest =>
      match required_of competencies PyDict.empty with
      | inr required =>
          add_careers rest
            (CareerAdvisor.add_career advisor (Career.mk name required))
      | inl e => inl e
      end
  end.

Definition build_default_advisor : exn + CareerAdvisor.t :=
  add_careers careers_data CareerAdvisor.new.
End Build.
End Catalog.

(** ** The analysis as a function

    [analyze_profile] only reads its state, so its result is a function of
    the profile and the careers; these definitions name that function and
    the quantities the properties speak about. *)

Section Functional.
Context {L : Lower}.

(** One round of the inner loop. *)
Definition requirement_step (p : Profile.t)
    (locals : PyDict.t Q * Q * Q) (item : string * string * Q)
    : PyDict.t Q * Q * Q :=
  let '(missing, total, achieved) := locals in
  let '(comp_name, kind, required_score) := item in
  let current_score := Profile.get_score p comp_name in
  (if Qltb current_score required_score
   then PyDict.set missing comp_name (required_score - current_score)
   else missing,
   total + required_score,
   achieved + Qmin current_score required_score).

(** [(missing, total, achieved)] when the inner loop ends. *)
Definition career_locals (p : Profile.t) (c : Career.t) : PyDict.t Q * Q * Q :=
  fold_left (requirement_step p) (Career.required_items c) (PyDict.empty, 0, 0).

Definition total_of (p : Profile.t) (c : Career.t) : Q :=
  snd (fst (career_locals p c)).

Definition achieved_of (p : Profile.t) (c : Career.t) : Q :=
  snd (career_locals p c).

Definition missing_of (p : Profile.t) (c : Career.t) : PyDict.t Q :=
  fst (fst (career_locals p c)).

(** [match], before it is rounded. *)
Definition raw_match (p : Profile.t) (c : Career.t) : Q :=
  if negb (Qeq_bool (total_of p c) 0)
  then achieved_of p c / total_of p c * 100
  else 0.

Definition recommend (p : Profile.t) (c : Career.t) : Recommendation.t :=
  Recommendation.mk p c (round2 (raw_match p c)) (missing_of p c).

(** The list [analyze_profile] returns for an advisor and a profile. *)
Definition analyze (adv : CareerAdvisor.t) (p : Profile.t)
    : list Recommendation.t :=
  fst (analyze_profile (mkWorld adv p)).

(** The sums the two counters hold. *)
Fixpoint sum_required (items : list (string * string * Q)) : Q :=
  match items with
  | [] => 0
  | (_, _, required_score) :: rest => required_score + sum_required rest
  end.

Fixpoint sum_achieved (p : Profile.t) (items : list (string * string * Q)) : Q :=
  match items with
  | [] => 0
  | (comp_name, _, required_score) :: rest =>
      Qmin (Profile.get_score p comp_name) required_score
      + sum_achieved p rest
  end.

(** The profile reaches the threshold of every requirement of the career. *)
Definition meets_all (p : Profile.t) (c : Career.t) : Prop :=
  forall comp_name kind required_score,
    In (comp_name, kind, required_score) (Career.required_items c) ->
    required_score <= Profile.get_score p comp_name.

(** Data-model invariant of a career: thresholds are positive. *)
Definition positive_requirements (c : Career.t) : Prop :=
  forall comp_name kind required_score,
    In (comp_name, kind, required_score) (Career.required_items c) ->
    0 < required_score.

(** Data-model invariant of a profile: what [Competency.make] checked. *)
Definition valid_profile (p : Profile.t) : Prop :=
  forall c, In c (Profile.list_competencies p) ->
    0 <= Competency.score c /\ Competency.score c <= 10.


(** Two careers that differ at most in the kind tags of their requirements. *)
Definition same_but_kinds (c c' : Career.t) : Prop :=
  Career.name c = Career.name c'
  /\ map (fun '(n, _, s) => (n, s)) (Career.required_items c)
     = map (fun '(n, _, s) => (n, s)) (Career.required_items c').

(** What a recommendation reports about a career. *)
Definition outcome (r : Recommendation.t) : string * Q * PyDict.t Q :=
  (Career.name (Recommendation.career r),
   Recommendation.match_percentage r,
   Recommendation.missing_competencies r).

(** A script that builds and adds competencies one by one; the first
    invalid one raises. *)
Fixpoint add_competencies (p : Profile.t) (l : list (string * string * Q))
    : exn + Profile.t :=
  match l with
  | [] => inr p
  | (name, kind, score) :: rest =>
      match Competency.make name kind score with
      | inr c => add_competencies (Profile.add_competency p c) rest
      | inl e => inl e
      end
  end.

(** What the buckets hold after a sequence of additions to a new profile. *)
Definition from_additions (cs : list Competency.t) (p : Profile.t) : Prop :=
  (forall k c, PyDict.get (Profile.technical_skills p) k = Some c
               \/ PyDict.get (Profile.behavioral_skills p) k = Some c ->
               In c cs /\ lower (Competency.name c) = k)
  /\ (forall c, In c cs ->
        PyDict.get (Profile.technical_skills p) (lower (Competency.name c))
          <> None
        \/ PyDict.get (Profile.behavioral_skills p) (lower (Competency.name c))
          <> None).
End Functional.

(** The order [list.sort] is asked for. *)
Definition ranked (a b : Recommendation.t) : Prop :=
  Recommendation.match_percentage b <= Recommendation.match_percentage a.

(** Recommendations whose percentage is [m]. *)
Definition with_match (m : Q) (r : Recommendation.t) : bool :=
  Qeq_bool (Recommendation.match_percentage r) m.

(** ** Scenarios *)

Module Scenario.
Section Ascii.
#[local] Instance ascii_Lower : Lower := ascii_lower.

(** The catalog, once built. *)
Definition default_advisor : CareerAdvisor.t :=
  match Catalog.build_default_advisor with
  | inr advisor => advisor
  | inl _ => CareerAdvisor.new
  end.

Definition marina_competencies : list (string * string * Q) :=
  [("python", "tecnica", 7.5);
   ("estatistica aplicada", "tecnica", 6);
   ("comunicacao", "comportamental", 6.5)].

(** The script that builds Marina's profile, and the profile it builds. *)
Definition marina : exn + Profile.t :=
  add_competencies (Profile.new "Marina") marina_competencies.

Definition marina_profile : Profile.t :=
  fold_left Profile.add_competency
    [Competency.mk "python" "tecnica" 7.5;
     Competency.mk "estatistica aplicada" "tecnica" 6;
     Competency.mk "comunicacao" "comportamental" 6.5]
    (Profile.new "Marina").

Definition cientista_de_dados : Career.t :=
  Career.mk "Cientista de Dados"
    [("python", ("tecnica", 9));
     ("estatistica aplicada", ("tecnica", 8));
     ("machine learning", ("tecnica", 9));
     ("data visualization", ("tecnica", 7));
     ("pensamento critico", ("comportamental", 8));
     ("comunicacao", ("comportamental", 8));
     ("orientacao a dados", ("comportamental", 7))].

(** The same career with other kind tags. *)
Definition cientista_retagged : Career.t :=
  Career.mk "Cientista de Dados"
    [("python", ("comportamental", 9));
     ("estatistica aplicada", ("comportamental", 8));
     ("machine learning", ("tecnica", 9));
     ("data visualization", ("outra", 7));
     ("pensamento critico", ("tecnica", 8));
     ("comunicacao", ("tecnica", 8));
     ("orientacao a dados", ("", 7))].

(** A profile a hair below the only threshold of a career. *)
Definition almost : exn + Profile.t :=
  add_competencies (Profile.new "Ana") [("sql", "tecnica", 7.9999)].

Definition almost_profile : Profile.t :=
  Profile.add_competency (Profile.new "Ana")
    (Competency.mk "sql" "tecnica" 7.9999).

Definition dba : Career.t := Career.mk "DBA" [("sql", ("tecnica", 8))].

Definition dba_advisor : CareerAdvisor.t :=
  CareerAdvisor.add_career CareerAdvisor.new dba.

(** A career that requires nothing. *)
Definition generalist : Career.t := Career.mk "Generalista" [].

Definition generalist_advisor : CareerAdvisor.t :=
  CareerAdvisor.add_career CareerAdvisor.new generalist.

(** Two careers in one registry. *)
Definition small_advisor : CareerAdvisor.t :=
  CareerAdvisor.add_career
    (CareerAdvisor.add_career CareerAdvisor.new cientista_de_dados) dba.

Definition small_advisor_retagged : CareerAdvisor.t :=
  CareerAdvisor.add_career
    (CareerAdvisor.add_career CareerAdvisor.new cientista_retagged) dba.

(** A career outside the data model: one threshold is negative. *)
Definition lopsided : Career.t :=
  Career.mk "Lopsided" [("a", ("tecnica", 10)); ("b", ("tecnica", -20))].

Definition beginner_profile : Profile.t := Profile.new "Bia".

Definition improved_profile : Profile.t :=
  Profile.add_competency beginner_profile (Competency.mk "a" "tecnica" 5).

(** The same name in both buckets, the technical one added first. *)
Definition both_kinds : exn + Profile.t :=
  add_competencies (Profile.new "Rui")
    [("python", "tecnica", 3); ("Python", "comportamental", 8)].

Definition both_kinds_profile : Profile.t :=
  Profile.add_competency
    (Profile.add_competency (Profile.new "Rui")
       (Competency.mk "python" "tecnica" 3))
    (Competency.mk "Python" "comportamental" 8).
End Ascii.
End Scenario.
(** ** [suggest_improvements] *)

(** [format(x, ".1f")], abstractly. *)
Class Format1f := format_1f : Q -> string.

(** The decimal digits of an integer. *)
Definition digits (z : Z) : string := NilZero.string_of_int (Z.to_int z).

(** One decimal place of the exact value, ties to even. *)
Definition decimal_1f (x : Q) : string :=
  let n := round_half_even (Qabs x * 10) in
  (if Qltb x 0 then "-" else "")
    ++ digits (n / 10) ++ "." ++ digits (n mod 10).

Definition satisfied_message : string :=
  "Perfil já atende aos requisitos dessa carreira!".

Section Suggestions.
Context {F : Format1f}.

(** The f-string of the loop body. *)
Definition suggestion (career_name : string) (entry : string * Q) : string :=
  let '(comp_name, missing_value) := entry in
  "Aumentar " ++ comp_name ++ " em " ++ format_1f missing_value
    ++ " pontos para a carreira de " ++ career_name ++ ".".

Definition suggest_improvements (recommendation : Recommendation.t)
    : list string :=
  let suggestions :=
    fold_left
      (fun suggestions entry =>
         (suggestions
            ++ [suggestion
                  (Career.name (Recommendation.career recommendation))
                  entry])%list)
      (PyDict.items (Recommendation.missing_competencies recommendation))
      [] in
  match suggestions with
  | [] => (suggestions ++ [satisfied_message])%list
  | _ => suggestions
  end.
End Suggestions.

(** ** Registries and requirement lists the methods can produce *)

Section Reachable.
Context {L : Lower}.

(** The advisors obtained from [CareerAdvisor()] by the mutating methods. *)
Inductive reachable : CareerAdvisor.t -> Prop :=
| reachable_new : reachable CareerAdvisor.new
| reachable_add_profile adv p :
    reachable adv -> reachable (CareerAdvisor.add_profile adv p)
| reachable_add_career adv c :
    reachable adv -> reachable (CareerAdvisor.add_career adv c)
| reachable_add_competency adv n c :
    reachable adv ->
    reachable (snd (CareerAdvisor.add_competency_to_profile adv n c)).

(** What the registry keeps true of its two mappings: an entry sits under
    the lowered name of its value, and keys are distinct. *)
Definition keyed {V : Type} (name_of : V -> string) (d : PyDict.t V) : Prop :=
  NoDup (PyDict.keys d)
  /\ forall k v, In (k, v) (PyDict.items d) -> k = lower (name_of v).

(** The requirement is not reached by the profile. *)
Definition unmet (p : Profile.t) (item : string * string * Q) : bool :=
  let '(comp_name, _, required_score) := item in
  Qltb (Profile.get_score p comp_name) required_score.

(** The entry the loop records for a requirement that is not reached. *)
Definition shortfall (p : Profile.t) (item : string * string * Q)
    : string * Q :=
  let '(comp_name, _, required_score) := item in
  (comp_name, required_score - Profile.get_score p comp_name).

(** The keys of a requirements mapping are distinct, as those of a [dict]. *)
Definition distinct_requirements (c : Career.t) : Prop :=
  NoDup (PyDict.keys (Career.required_competencies c)).

(** What [add_competency] keeps true of a bucket: an entry sits under its
    lowered name, in the bucket its kind selects, and keys are distinct. *)
Definition well_filed (technical : bool) (d : PyDict.t Competency.t) : Prop :=
  NoDup (PyDict.keys d)
  /\ forall k c, In (k, c) (PyDict.items d) ->
       k = lower (Competency.name c)
       /\ String.eqb (Competency.kind c) "tecnica" = technical.

(** The two invariants of a career, as tests. *)
Definition positive_requirementsb (c : Career.t) : bool :=
  forallb (fun item : string * string * Q => Qltb 0 (snd item))
          (Career.required_items c).

Fixpoint distinctb (l : list string) : bool :=
  match l with
  | [] => true
  | x :: l' => negb (existsb (String.eqb x) l') && distinctb l'
  end.

Definition distinct_requirementsb (c : Career.t) : bool :=
  distinctb (PyDict.keys (Career.required_competencies c)).

(** A row of [careers_data] names catalog skills only, and gives a career
    that has the two invariants. *)
Definition catalog_row_ok (row : string * list string) : bool :=
  match Catalog.required_of (snd row) PyDict.empty with
  | inr required =>
      positive_requirementsb (Career.mk (fst row) required)
      && distinct_requirementsb (Career.mk (fst row) required)
  | inl _ => false
  end.

(** The bucket of a competency. *)
Definition bucket_of (p : Profile.t) (c : Competency.t)
    : PyDict.t Competency.t :=
  if String.eqb (Competency.kind c) "tecnica"
  then Profile.technical_skills p
  else Profile.behavioral_skills p.
End Reachable.

Module Examples.
Section Ascii.
#[local] Existing Instance Scenario.ascii_Lower.
#[local] Instance decimal_Format : Format1f := decimal_1f.

(** The registry after a career, a profile and a competency are entered. *)
Definition session : CareerAdvisor.t :=
  snd (CareerAdvisor.add_competency_to_profile
         (CareerAdvisor.add_profile
            (CareerAdvisor.add_career CareerAdvisor.new Scenario.dba)
            (Profile.new "Ana"))
         "ANA" (Competency.mk "SQL" "tecnica" 6.5)).

(** A profile that reaches the threshold of [Scenario.dba]. *)
Definition expert_profile : Profile.t :=
  Profile.add_competency (Profile.new "Eva")
    (Competency.mk "sql" "tecnica" 9).

(** A profile already above the threshold, and one further above. *)
Definition guru_profile : Profile.t :=
  Profile.add_competency (Profile.new "Eva")
    (Competency.mk "sql" "tecnica" 10).
End Ascii.
End Examples.

(** * Properties *)

(** ** Dictionaries *)

Module PyDictFacts.
Section Facts.
Context {V : Type}.
Implicit Types (d : PyDict.t V) (k : string) (v : V).

Lemma get_set_same d k v : PyDict.get (PyDict.set d k v) k = Some v.
Proof.
  induction d as [|[k' v'] d IH]; simpl.
  - now rewrite String.eqb_refl.
  - destruct (String.eqb k' k) eqn:E; simpl; rewrite E; auto.
Qed.

Lemma get_set_other d k k' v :
  k <> k' -> PyDict.get (PyDict.set d k v) k' = PyDict.get d k'.
Proof.
  intros Hne. induction d as [|[k0 v0] d IH]; simpl.
  - destruct (String.eqb k k') eqn:E; auto.
    apply String.eqb_eq in E. contradiction.
  - destruct (String.eqb k0 k) eqn:E; simpl.
    + apply String.eqb_eq in E. subst k0.
      destruct (String.eqb k k') eqn:E'; auto.
      apply String.eqb_eq in E'. contradiction.
    + now rewrite IH.
Qed.

Lemma get_In d k v : PyDict.get d k = Some v -> In v (PyDict.values d).
Proof.
  induction d as [|[k' v'] d IH]; simpl; [discriminate|].
  destruct (String.eqb k' k); intros H.
  - injection H as ->. now left.
  - right. auto.
Qed.

Lemma values_set_In d k v x :
  In x (PyDict.values (PyDict.set d k v)) -> x = v \/ In x (PyDict.values d).
Proof.
  induction d as [|[k' v'] d IH]; simpl.
  - intros [H|[]]; auto.
  - destruct (String.eqb k' k); simpl; intros [H|H]; auto.
    destruct (IH H); auto.
Qed.

(** A new key is appended: iteration order is insertion order. *)
Lemma values_set_fresh d k v :
  PyDict.contains d k = false ->
  PyDict.values (PyDict.set d k v) = (PyDict.values d ++ [v])%list.
Proof.
  unfold PyDict.contains.
  induction d as [|[k' v'] d IH]; simpl; auto.
  destruct (String.eqb k' k); [discriminate|].
  intros H. cbn [PyDict.values map snd]. f_equal. now apply IH.
Qed.

(** Overwriting a key keeps every position. *)
Lemma keys_set_present d k v :
  PyDict.contains d k = true ->
  PyDict.keys (PyDict.set d k v) = PyDict.keys d.
Proof.
  unfold PyDict.contains, PyDict.keys.
  induction d as [|[k' v'] d IH]; simpl; [discriminate|].
  destruct (String.eqb k' k) eqn:E; simpl; auto.
  intros H. now rewrite IH.
Qed.
End Facts.
End PyDictFacts.

(** ** Rounding *)

Lemma Qltb_lt x y : Qltb x y = true <-> x < y.
Proof.
  unfold Qltb. rewrite negb_true_iff, <- not_true_iff_false, Qle_bool_iff.
  split; [apply Qnot_le_lt | apply Qlt_not_le].
Qed.

Lemma Qltb_ge x y : Qltb x y = false <-> y <= x.
Proof.
  unfold Qltb. rewrite negb_false_iff. apply Qle_bool_iff.
Qed.

Lemma round_half_even_near x :
  inject_Z (round_half_even x) - (1 # 2) <= x
  /\ x <= inject_Z (round_half_even x) + (1 # 2).
Proof.
  unfold round_half_even.
  pose proof (Qfloor_le x) as Hlo. pose proof (Qlt_floor x) as Hhi.
  rewrite inject_Z_plus in Hhi. change (inject_Z 1) with 1 in Hhi.
  destruct (Qcompare_spec (x - inject_Z (Qfloor x)) (1 # 2)).
  - destruct (Z.even (Qfloor x));
      [|rewrite inject_Z_plus; change (inject_Z 1) with 1]; split; lra.
  - split; lra.
  - rewrite inject_Z_plus. change (inject_Z 1) with 1. split; lra.
Qed.

Lemma round_half_even_mono x y :
  x <= y -> (round_half_even x <= round_half_even y)%Z.
Proof.
  intros Hxy. pose proof (Qfloor_resp_le _ _ Hxy) as Hf.
  unfold round_half_even.
  destruct (Z.eq_dec (Qfloor x) (Qfloor y)) as [Heq|Hne].
  - rewrite <- Heq.
    destruct (Qcompare_spec (x - inject_Z (Qfloor x)) (1 # 2));
    destruct (Qcompare_spec (y - inject_Z (Qfloor x)) (1 # 2));
    try (exfalso; lra);
    destruct (Z.even (Qfloor x)); lia.
  - assert (Qfloor x + 1 <= Qfloor y)%Z by lia.
    destruct (Qcompare (x - inject_Z (Qfloor x)) (1 # 2));
    destruct (Qcompare (y - inject_Z (Qfloor y)) (1 # 2));
    destruct (Z.even (Qfloor x)); destruct (Z.even (Qfloor y)); lia.
Qed.

Lemma round_half_even_comp x y : x == y -> round_half_even x = round_half_even y.
Proof.
  intros H. apply Z.le_antisymm; apply round_half_even_mono; lra.
Qed.

Lemma round2_spec x : round2 x == inject_Z (round_half_even (x * 100)) / 100.
Proof. unfold round2. apply Qred_correct. Qed.

Lemma round2_mono x y : x <= y -> round2 x <= round2 y.
Proof.
  intros H. rewrite !round2_spec.
  assert (Hm : (round_half_even (x * 100) <= round_half_even (y * 100))%Z)
    by (apply round_half_even_mono; lra).
  rewrite Zle_Qle in Hm.
  apply Qmult_le_compat_r; [exact Hm|]. discriminate.
Qed.

Lemma round2_comp x y : x == y -> round2 x = round2 y.
Proof.
  intros H. unfold round2.
  now rewrite (round_half_even_comp (x * 100) (y * 100)) by (rewrite H; reflexivity).
Qed.

Lemma round2_range x : 0 <= x <= 100 -> 0 <= round2 x <= 100.
Proof.
  intros [H0 H1]. split.
  - change 0 with (round2 0). now apply round2_mono.
  - change 100 with (round2 100). now apply round2_mono.
Qed.

(** ** Sorting *)

Section SortFacts.
Context {A : Type} (key : A -> Q).

Let ge_key (a b : A) : Prop := key b <= key a.

Lemma insert_desc_perm x l : Permutation (insert_desc key x l) (x :: l).
Proof.
  induction l as [|y l IH]; simpl; auto.
  destruct (Qle_bool (key y) (key x)); auto.
  rewrite IH. apply perm_swap.
Qed.

Lemma sort_desc_perm l : Permutation (sort_desc key l) l.
Proof.
  induction l as [|x l IH]; simpl; auto.
  rewrite insert_desc_perm. now constructor.
Qed.

Lemma sort_desc_In l x : In x (sort_desc key l) <-> In x l.
Proof.
  split; apply Permutation_in;
    [apply sort_desc_perm | apply Permutation_sym, sort_desc_perm].
Qed.

Lemma insert_desc_sorted x l :
  StronglySorted ge_key l -> StronglySorted ge_key (insert_desc key x l).
Proof.
  induction 1 as [|y l Hl IH Hy]; simpl.
  - repeat constructor.
  - destruct (Qle_bool (key y) (key x)) eqn:E.
    + apply Qle_bool_iff in E.
      constructor; [now constructor|].
      constructor; [exact E|].
      rewrite Forall_forall in *. intros z Hz. unfold ge_key in *.
      eapply Qle_trans; [apply Hy, Hz | exact E].
    + constructor; [exact IH|].
      rewrite Forall_forall in *. intros z Hz.
      apply (Permutation_in _ (insert_desc_perm x l)) in Hz.
      destruct Hz as [<-|Hz]; [|now apply Hy].
      unfold ge_key. apply Qlt_le_weak, Qltb_lt. unfold Qltb. now rewrite E.
Qed.

Lemma sort_desc_sorted l : StronglySorted ge_key (sort_desc key l).
Proof.
  induction l; simpl; [constructor | now apply insert_desc_sorted].
Qed.

(** Stability: among the elements of one key, insertion keeps the new
    element in front, and it only ever passes larger keys. *)
Lemma insert_desc_stable m x l :
  filter (fun a => Qeq_bool (key a) m) (insert_desc key x l)
  = filter (fun a => Qeq_bool (key a) m) (x :: l).
Proof.
  induction l as [|y l IH]; [reflexivity|].
  cbn [insert_desc]. destruct (Qle_bool (key y) (key x)) eqn:E; [reflexivity|].
  cbn [filter] in *. rewrite IH.
  destruct (Qeq_bool (key y) m) eqn:Ey, (Qeq_bool (key x) m) eqn:Ex;
    try reflexivity.
  apply Qeq_bool_iff in Ey, Ex.
  assert (Hle : key y <= key x) by (rewrite Ey, Ex; apply Qle_refl).
  apply Qle_bool_iff in Hle. congruence.
Qed.

Lemma sort_desc_stable m l :
  filter (fun a => Qeq_bool (key a) m) (sort_desc key l)
  = filter (fun a => Qeq_bool (key a) m) l.
Proof.
  induction l as [|x l IH]; [reflexivity|].
  cbn [sort_desc fold_right]. rewrite insert_desc_stable.
  cbn [filter]. fold (sort_desc key l). now rewrite IH.
Qed.
End SortFacts.

(** Sorting commutes with a map that keeps the keys. *)
Lemma sort_desc_map {A B} (key : A -> Q) (key' : B -> Q) (g : A -> B) l :
  (forall a, key' (g a) = key a) ->
  map g (sort_desc key l) = sort_desc key' (map g l).
Proof.
  intros Hk. induction l as [|x l IH]; [reflexivity|].
  cbn [sort_desc fold_right map]. fold (sort_desc key l).
  fold (sort_desc key' (map g l)). rewrite <- IH.
  generalize (sort_desc key l) as s. induction s as [|y s IHs]; [reflexivity|].
  cbn [insert_desc map]. rewrite !Hk.
  destruct (Qle_bool (key y) (key x)); cbn [map]; [reflexivity|].
  now rewrite IHs.
Qed.

(** ** [analyze_profile] only reads *)

Lemma for_each_reads {A B} (l : list A) (body : B -> A -> M B)
    (f : B -> A -> B) (w : World) :
  (forall acc x, body acc x w = (f acc x, w)) ->
  forall acc, for_each l acc body w = (fold_left f l acc, w).
Proof.
  intros Hbody. induction l as [|x l IH]; intros acc; [reflexivity|].
  cbn [for_each fold_left]. unfold bind. rewrite Hbody. apply IH.
Qed.

Lemma fold_left_snoc {A B} (f : A -> B) (l : list A) (acc : list B) :
  fold_left (fun rs x => rs ++ [f x])%list l acc = (acc ++ map f l)%list.
Proof.
  revert acc. induction l as [|x l IH]; intros acc; cbn [fold_left map].
  - now rewrite app_nil_r.
  - rewrite IH, <- app_assoc. reflexivity.
Qed.

Section AnalysisFacts.
Context {L : Lower}.

Lemma score_requirement_run locals item w :
  score_requirement locals item w
  = (requirement_step (profile_ w) locals item, w).
Proof. destruct locals as [[missing total] achieved], item as [[n k] s]. reflexivity. Qed.

Lemma score_career_run results c w :
  score_career results c w = ((results ++ [recommend (profile_ w) c])%list, w).
Proof.
  unfold score_career, bind.
  rewrite (for_each_reads _ _ (requirement_step (profile_ w)))
    by (intros; apply score_requirement_run).
  unfold recommend, raw_match, total_of, achieved_of, missing_of, career_locals.
  destruct (fold_left _ _ _) as [[missing total] achieved]. reflexivity.
Qed.

Lemma analyze_profile_run w :
  analyze_profile w
  = (sort_desc Recommendation.match_percentage
       (map (recommend (profile_ w)) (CareerAdvisor.list_careers (self_ w))),
     w).
Proof.
  unfold analyze_profile, bind, gets, ret.
  rewrite (for_each_reads _ _ (fun rs c => rs ++ [recommend (profile_ w) c])%list)
    by (intros; apply score_career_run).
  now rewrite fold_left_snoc.
Qed.

Lemma analyze_eq adv p :
  analyze adv p
  = sort_desc Recommendation.match_percentage
      (map (recommend p) (CareerAdvisor.list_careers adv)).
Proof. unfold analyze. now rewrite analyze_profile_run. Qed.

Lemma analyze_In adv p r :
  In r (analyze adv p)
  <-> exists c, In c (CareerAdvisor.list_careers adv) /\ r = recommend p c.
Proof.
  rewrite analyze_eq, sort_desc_In, in_map_iff.
  split; intros [c [H1 H2]]; exists c; auto.
Qed.

Lemma analyze_returns adv p c :
  In c (CareerAdvisor.list_careers adv) -> In (recommend p c) (analyze adv p).
Proof. intros H. apply analyze_In. eauto. Qed.

(** *** The two counters *)

Lemma fold_requirement_step p items missing total achieved :
  let out := fold_left (requirement_step p) items (missing, total, achieved) in
  snd (fst out) == total + sum_required items
  /\ snd out == achieved + sum_achieved p items.
Proof.
  revert missing total achieved.
  induction items as [|[[n k] s] items IH]; intros missing total achieved.
  - cbn. split; ring.
  - cbn [fold_left requirement_step sum_required sum_achieved].
    destruct (IH (if Qltb (Profile.get_score p n) s
                  then PyDict.set missing n (s - Profile.get_score p n)
                  else missing)
                 (total + s) (achieved + Qmin (Profile.get_score p n) s))
      as [Ht Ha].
    cbv zeta in *. rewrite Ht, Ha. split; ring.
Qed.

Lemma total_of_sum p c : total_of p c == sum_required (Career.required_items c).
Proof.
  unfold total_of, career_locals.
  destruct (fold_requirement_step p (Career.required_items c) PyDict.empty 0 0)
    as [H _].
  cbv zeta in H. rewrite H. ring.
Qed.

Lemma achieved_of_sum p c :
  achieved_of p c == sum_achieved p (Career.required_items c).
Proof.
  unfold achieved_of, career_locals.
  destruct (fold_requirement_step p (Career.required_items c) PyDict.empty 0 0)
    as [_ H].
  cbv zeta in H. rewrite H. ring.
Qed.

Lemma get_score_valid p n :
  valid_profile p -> 0 <= Profile.get_score p n /\ Profile.get_score p n <= 10.
Proof.
  intros Hp. unfold Profile.get_score.
  destruct (PyDict.get (Profile.technical_skills p) (lower n)) as [c|] eqn:Et.
  - apply Hp. unfold Profile.list_competencies. apply in_or_app. left.
    eapply PyDictFacts.get_In; eauto.
  - destruct (PyDict.get (Profile.behavioral_skills p) (lower n)) as [c|] eqn:Eb.
    + apply Hp. unfold Profile.list_competencies. apply in_or_app. right.
      eapply PyDictFacts.get_In; eauto.
    + split; [apply Qle_refl | discriminate].
Qed.

Lemma sum_achieved_le p items : sum_achieved p items <= sum_required items.
Proof.
  induction items as [|[[n k] s] items IH]; cbn; [apply Qle_refl|].
  pose proof (Q.le_min_r (Profile.get_score p n) s). lra.
Qed.

Lemma sum_achieved_nonneg p items :
  valid_profile p ->
  (forall n k s, In (n, k, s) items -> 0 < s) ->
  0 <= sum_achieved p items.
Proof.
  intros Hp. induction items as [|[[n k] s] items IH]; intros Hpos; cbn.
  - apply Qle_refl.
  - assert (0 <= Qmin (Profile.get_score p n) s).
    { apply Q.min_glb; [apply get_score_valid, Hp|].
      apply Qlt_le_weak, (Hpos n k). now left. }
    assert (0 <= sum_achieved p items)
      by (apply IH; intros; eapply Hpos; right; eauto).
    lra.
Qed.

Lemma sum_required_nonneg items :
  (forall n k s, In (n, k, s) items -> 0 < s) -> 0 <= sum_required items.
Proof.
  induction items as [|[[n k] s] items IH]; intros Hpos; cbn.
  - apply Qle_refl.
  - assert (0 < s) by (apply (Hpos n k); now left).
    assert (0 <= sum_required items)
      by (apply IH; intros; eapply Hpos; right; eauto).
    lra.
Qed.




End AnalysisFacts.

(** ** The percentage *)

Section MatchFacts.
Context {L : Lower}.

Lemma raw_match_cases p c :
  (sum_required (Career.required_items c) == 0 /\ raw_match p c = 0)
  \/ (~ sum_required (Career.required_items c) == 0
      /\ raw_match p c
         == sum_achieved p (Career.required_items c)
            / sum_required (Career.required_items c) * 100).
Proof.
  unfold raw_match. pose proof (total_of_sum p c) as Ht.
  destruct (Qeq_bool (total_of p c) 0) eqn:E; cbn [negb].
  - left. apply Qeq_bool_iff in E. split; [|reflexivity]. now rewrite <- Ht.
  - right. apply Qeq_bool_neq in E.
    split; [now rewrite <- Ht|]. now rewrite Ht, achieved_of_sum.
Qed.

Lemma raw_match_range p c :
  valid_profile p -> positive_requirements c ->
  0 <= raw_match p c /\ raw_match p c <= 100.
Proof.
  intros Hp Hc.
  pose proof (sum_achieved_nonneg p _ Hp Hc) as Ha.
  pose proof (sum_achieved_le p (Career.required_items c)) as Hle.
  pose proof (sum_required_nonneg _ Hc) as Ht.
  destruct (raw_match_cases p c) as [[_ ->]|[Hnz ->]];
    [split; [apply Qle_refl | discriminate]|].
  assert (Hpos : 0 < sum_required (Career.required_items c)).
  { apply Qle_lt_or_eq in Ht. destruct Ht as [Ht|Ht]; [exact Ht|].
    exfalso. apply Hnz. now symmetry. }
  split.
  - apply Qmult_le_0_compat; [|discriminate].
    apply Qle_shift_div_l; [exact Hpos|]. lra.
  - setoid_replace 100 with (1 * 100) at 2 by ring.
    apply Qmult_le_compat_r; [|discriminate].
    apply Qle_shift_div_r; [exact Hpos|]. lra.
Qed.



End MatchFacts.

(** ** Profiles *)

Section ProfileFacts.
Context {L : Lower}.

Lemma make_inr n k s c :
  Competency.make n k s = inr c ->
  c = Competency.mk n (lower k) s
  /\ (lower k = "tecnica" \/ lower k = "comportamental")
  /\ 0 <= s /\ s <= 10.
Proof.
  unfold Competency.make.
  destruct (String.eqb (lower k) "tecnica") eqn:Et;
  destruct (String.eqb (lower k) "comportamental") eqn:Eb; cbn [orb negb];
    try discriminate;
  (destruct (Qle_bool 0 s) eqn:E0; [|discriminate]);
  (destruct (Qle_bool s 10) eqn:E1; [|discriminate]); cbn [andb negb];
  intros H; injection H as <-;
  apply Qle_bool_iff in E0, E1;
  (split; [reflexivity|]); (split; [|split; assumption]).
  - left. now apply String.eqb_eq.
  - left. now apply String.eqb_eq.
  - right. now apply String.eqb_eq.
Qed.

Lemma get_score_add_other p c q :
  lower (Competency.name c) <> lower q ->
  Profile.get_score (Profile.add_competency p c) q = Profile.get_score p q.
Proof.
  intros Hne. unfold Profile.get_score, Profile.add_competency.
  destruct (String.eqb (Competency.kind c) "tecnica");
    cbn [Profile.technical_skills Profile.behavioral_skills];
    now rewrite PyDictFacts.get_set_other.
Qed.

Lemma get_score_add_technical p c q :
  Competency.kind c = "tecnica" -> lower q = lower (Competency.name c) ->
  Profile.get_score (Profile.add_competency p c) q = Competency.score c.
Proof.
  intros Hk Hq. unfold Profile.get_score, Profile.add_competency.
  rewrite Hk, Hq. cbn [String.eqb Ascii.eqb Bool.eqb andb Profile.technical_skills].
  now rewrite PyDictFacts.get_set_same.
Qed.

Lemma get_score_add_behavioral p c q :
  Competency.kind c = "comportamental" ->
  lower q = lower (Competency.name c) ->
  Profile.get_score (Profile.add_competency p c) q
  = match PyDict.get (Profile.technical_skills p) (lower q) with
    | Some c' => Competency.score c'
    | None => Competency.score c
    end.
Proof.
  intros Hk Hq. unfold Profile.get_score, Profile.add_competency.
  rewrite Hk.
  cbn [String.eqb Ascii.eqb Bool.eqb andb
       Profile.technical_skills Profile.behavioral_skills].
  rewrite Hq. now rewrite PyDictFacts.get_set_same.
Qed.

Lemma technical_add_technical p c :
  Competency.kind c = "tecnica" ->
  PyDict.get (Profile.technical_skills (Profile.add_competency p c))
             (lower (Competency.name c)) = Some c.
Proof.
  intros Hk. unfold Profile.add_competency. rewrite Hk.
  cbn [String.eqb Ascii.eqb Bool.eqb andb Profile.technical_skills].
  apply PyDictFacts.get_set_same.
Qed.

Lemma technical_add_behavioral p c :
  Competency.kind c = "comportamental" ->
  Profile.technical_skills (Profile.add_competency p c)
  = Profile.technical_skills p.
Proof.
  intros Hk. unfold Profile.add_competency. now rewrite Hk.
Qed.


Lemma from_additions_new nm : from_additions [] (Profile.new nm).
Proof.
  split.
  - intros k c [H|H]; discriminate.
  - intros c [].
Qed.

Lemma from_additions_add cs p c :
  from_additions cs p ->
  from_additions (cs ++ [c]) (Profile.add_competency p c).
Proof.
  intros [Hsub Hall]. unfold Profile.add_competency. split.
  - intros k c0 Hget. rewrite in_app_iff.
    destruct (String.eqb (Competency.kind c) "tecnica");
      cbn [Profile.technical_skills Profile.behavioral_skills] in Hget;
      (destruct (string_dec (lower (Competency.name c)) k) as [<-|Hne];
       [rewrite PyDictFacts.get_set_same in Hget
       |rewrite PyDictFacts.get_set_other in Hget by exact Hne]).
    + destruct Hget as [Hget|Hget].
      * injection Hget as <-. split; [right; now left | reflexivity].
      * destruct (Hsub _ _ (or_intror Hget)). auto.
    + destruct (Hsub _ _ Hget). auto.
    + destruct Hget as [Hget|Hget].
      * destruct (Hsub _ _ (or_introl Hget)). auto.
      * injection Hget as <-. split; [right; now left | reflexivity].
    + destruct (Hsub _ _ Hget). auto.
  - intros c0 Hin. apply in_app_iff in Hin.
    destruct (string_dec (lower (Competency.name c))
                         (lower (Competency.name c0))) as [E|Hne].
    + rewrite <- E.
      destruct (String.eqb (Competency.kind c) "tecnica");
        cbn [Profile.technical_skills Profile.behavioral_skills];
        rewrite PyDictFacts.get_set_same; [left|right]; discriminate.
    + destruct Hin as [Hin|[<-|[]]]; [|congruence].
      destruct (String.eqb (Competency.kind c) "tecnica");
        cbn [Profile.technical_skills Profile.behavioral_skills];
        rewrite PyDictFacts.get_set_other by exact Hne; now apply Hall.
Qed.

Lemma from_additions_fold cs :
  forall cs0 p, from_additions cs0 p ->
  from_additions (cs0 ++ cs) (fold_left Profile.add_competency cs p).
Proof.
  induction cs as [|c cs IH]; intros cs0 p H; cbn [fold_left].
  - now rewrite app_nil_r.
  - replace (cs0 ++ c :: cs)%list with ((cs0 ++ [c]) ++ cs)%list
      by (rewrite <- app_assoc; reflexivity).
    apply IH. now apply from_additions_add.
Qed.

Lemma list_competencies_add p c c' :
  In c' (Profile.list_competencies (Profile.add_competency p c)) ->
  c' = c \/ In c' (Profile.list_competencies p).
Proof.
  unfold Profile.list_competencies, Profile.add_competency.
  destruct (String.eqb (Competency.kind c) "tecnica");
    cbn [Profile.technical_skills Profile.behavioral_skills];
    rewrite !in_app_iff; intros [H|H]; auto;
    apply PyDictFacts.values_set_In in H; tauto.
Qed.

Lemma list_competencies_added p c :
  In c (Profile.list_competencies (Profile.add_competency p c)).
Proof.
  unfold Profile.list_competencies, Profile.add_competency.
  destruct (String.eqb (Competency.kind c) "tecnica");
    cbn [Profile.technical_skills Profile.behavioral_skills];
    rewrite in_app_iff; [left|right];
    eapply PyDictFacts.get_In, PyDictFacts.get_set_same.
Qed.

(** The invariant of profiles: valid competencies keep a profile valid. *)
Lemma valid_profile_add p c :
  valid_profile p -> 0 <= Competency.score c <= 10 ->
  valid_profile (Profile.add_competency p c).
Proof.
  intros Hp Hc c' Hin. apply list_competencies_add in Hin.
  destruct Hin as [->|Hin]; auto.
Qed.

Lemma valid_profile_new nm : valid_profile (Profile.new nm).
Proof. intros c []. Qed.

Lemma valid_add_competencies l :
  forall p p', valid_profile p -> add_competencies p l = inr p' ->
  valid_profile p'.
Proof.
  induction l as [|[[n k] s] l IH]; intros p p' Hp; cbn [add_competencies].
  - intros H. injection H as <-. exact Hp.
  - destruct (Competency.make n k s) as [e|c] eqn:E; [discriminate|].
    apply IH. apply valid_profile_add; [exact Hp|].
    apply make_inr in E. destruct E as [-> [_ [H0 H1]]]. now split.
Qed.
End ProfileFacts.

(** * The claims *)

Section Claims.
Context {L : Lower}.


(** C2.  The list [analyze] returns is sorted by percentage, largest first;
    the recommendations of any one percentage come in the order of their
    careers in the registry; and that order is the order of insertion: a
    career with a new name goes last. *)
Theorem analyze_ranking adv p :
  StronglySorted ranked (analyze adv p)
  /\ (forall m,
        filter (with_match m) (analyze adv p)
        = filter (with_match m)
            (map (recommend p) (CareerAdvisor.list_careers adv)))
  /\ (forall c,
        PyDict.contains (CareerAdvisor.careers adv) (lower (Career.name c))
          = false ->
        CareerAdvisor.list_careers (CareerAdvisor.add_career adv c)
        = (CareerAdvisor.list_careers adv ++ [c])%list).
Proof.
  rewrite analyze_eq. split; [|split].
  - apply (sort_desc_sorted Recommendation.match_percentage).
  - intros m. apply (sort_desc_stable Recommendation.match_percentage).
  - intros c Hfresh. unfold CareerAdvisor.list_careers, CareerAdvisor.add_career.
    cbn [CareerAdvisor.careers]. now apply PyDictFacts.values_set_fresh.
Qed.


(** C4 (as amended).  Two valid competencies of one name, up to case, are
    added to a profile in order.  If the second is technical, or if the
    first is behavioral and the profile holds no technical competency of
    that name, [get_score] returns the score of the second, whatever the
    case of the name asked for. *)
Theorem last_write_wins_unless_technical_shadows
    p n1 k1 s1 n2 k2 s2 c1 c2 q :
  Competency.make n1 k1 s1 = inr c1 ->
  Competency.make n2 k2 s2 = inr c2 ->
  lower n1 = lower n2 ->
  lower q = lower n2 ->
  Competency.kind c2 = "tecnica"
  \/ (Competency.kind c1 = "comportamental"
      /\ PyDict.get (Profile.technical_skills p) (lower n1) = None) ->
  Profile.get_score
    (Profile.add_competency (Profile.add_competency p c1) c2) q
  = s2.
Proof.
  intros E1 E2 Hn Hq Hcase.
  apply make_inr in E1, E2.
  destruct E1 as [-> [_ _]], E2 as [-> [Hk2 _]].
  cbn [Competency.kind] in *.
  destruct Hcase as [Ht|[Hb Hnone]].
  - now rewrite get_score_add_technical.
  - destruct Hk2 as [Hk2|Hk2].
    + now rewrite get_score_add_technical.
    + rewrite get_score_add_behavioral by assumption.
      rewrite technical_add_behavioral by assumption.
      rewrite Hq, <- Hn, Hnone. reflexivity.
Qed.

(** C5 (as amended).  [Competency(name, kind, score)] succeeds exactly
    when the lowercased kind is one of the two allowed strings and the
    score is in [0, 10]; it then holds the name, the lowercased kind and
    the score.  Otherwise it raises [ValueError]. *)
Theorem competency_construction n k s :
  let valid :=
    (lower k = "tecnica" \/ lower k = "comportamental")
    /\ 0 <= s /\ s <= 10 in
  match Competency.make n k s with
  | inr c => valid /\ c = Competency.mk n (lower k) s
  | inl e => ~ valid /\ exists msg, e = ValueError msg
  end.
Proof.
  intros valid. subst valid.
  destruct (Competency.make n k s) as [e|c] eqn:E.
  - unfold Competency.make in E. split.
    + intros [[Hk|Hk] [H0 H1]]; rewrite Hk in E;
        apply Qle_bool_iff in H0, H1; rewrite H0, H1 in E; discriminate.
    + destruct (negb _); [injection E as <-; eauto|].
      destruct (negb _); [injection E as <-; eauto|discriminate].
  - destruct (make_inr _ _ _ _ E) as [Hc Hv]. split; [exact Hv | exact Hc].
Qed.

(** C6.  For a profile built from [Profile(name)] by any additions: a name
    that was never added, names compared up to case, has score 0; and a
    name that was added is found whatever its case, the score returned
    being that of a competency added under that name. *)
Theorem get_score_absent_and_case_insensitive nm cs q :
  let p := fold_left Profile.add_competency cs (Profile.new nm) in
  ((forall c, In c cs -> lower (Competency.name c) <> lower q) ->
   Profile.get_score p q = 0)
  /\ ((exists c, In c cs /\ lower (Competency.name c) = lower q) ->
      exists c', In c' cs /\ lower (Competency.name c') = lower q
                 /\ Profile.get_score p q = Competency.score c').
Proof.
  intros p.
  destruct (from_additions_fold cs [] (Profile.new nm) (from_additions_new nm))
    as [Hsub Hall].
  fold p in Hsub, Hall. cbn [app] in Hsub, Hall.
  unfold Profile.get_score. split.
  - intros Hnone.
    destruct (PyDict.get (Profile.technical_skills p) (lower q)) as [c|] eqn:Et.
    { destruct (Hsub _ _ (or_introl Et)) as [Hin E]. now destruct (Hnone c Hin). }
    destruct (PyDict.get (Profile.behavioral_skills p) (lower q)) as [c|] eqn:Eb.
    { destruct (Hsub _ _ (or_intror Eb)) as [Hin E]. now destruct (Hnone c Hin). }
    reflexivity.
  - intros [c [Hin E]]. specialize (Hall c Hin). rewrite E in Hall.
    destruct (PyDict.get (Profile.technical_skills p) (lower q)) as [c'|] eqn:Et.
    { destruct (Hsub _ _ (or_introl Et)). exists c'. auto. }
    destruct (PyDict.get (Profile.behavioral_skills p) (lower q)) as [c'|] eqn:Eb.
    { destruct (Hsub _ _ (or_intror Eb)). exists c'. auto. }
    destruct Hall; congruence.
Qed.

Lemma fold_requirement_step_kinds p items items' :
  map (fun '(n, _, s) => (n, s)) items
  = map (fun '(n, _, s) => (n, s)) items' ->
  forall acc,
    fold_left (requirement_step p) items acc
    = fold_left (requirement_step p) items' acc.
Proof.
  revert items'.
  induction items as [|[[n k] s] items IH]; intros [|[[n' k'] s'] items'];
    cbn [map]; try discriminate; [reflexivity|].
  intros E acc. injection E as -> -> E. cbn [fold_left].
  rewrite (IH items' E). f_equal.
Qed.

Lemma outcome_same_but_kinds p c c' :
  same_but_kinds c c' -> outcome (recommend p c) = outcome (recommend p c').
Proof.
  intros [Hname Hitems].
  assert (E : career_locals p c = career_locals p c')
    by (apply fold_requirement_step_kinds, Hitems).
  unfold outcome, recommend, raw_match, total_of, achieved_of, missing_of.
  cbn [Recommendation.career Recommendation.match_percentage
       Recommendation.missing_competencies].
  now rewrite E, Hname.
Qed.

(** C7.  When the careers of two registries differ at most in the kind
    tags of their requirements, [analyze] reports, for every profile, the
    same careers in the same order with the same percentages and the same
    missing maps. *)
Theorem kind_tags_do_not_influence_scoring adv adv' p :
  Forall2 same_but_kinds
    (CareerAdvisor.list_careers adv) (CareerAdvisor.list_careers adv') ->
  map outcome (analyze adv p) = map outcome (analyze adv' p).
Proof.
  intros H. rewrite !analyze_eq.
  rewrite !(sort_desc_map Recommendation.match_percentage
              (fun o => snd (fst o)) outcome) by reflexivity.
  f_equal. rewrite !map_map.
  induction H as [|c c' cs cs' Hc _ IH]; [reflexivity|].
  cbn [map]. now rewrite IH, (outcome_same_but_kinds p c c' Hc).
Qed.

(** C9.  A call of [analyze_profile] leaves the state as it found it: the
    buckets of the profile and the two mappings of the registry are the
    same after the call; and whatever runs after the call runs as if the
    call had not happened, another analysis included. *)
Theorem analyze_profile_leaves_no_trace w :
  let w' := snd (analyze_profile w) in
  (Profile.technical_skills (profile_ w') = Profile.technical_skills (profile_ w)
   /\ Profile.behavioral_skills (profile_ w')
      = Profile.behavioral_skills (profile_ w)
   /\ CareerAdvisor.profiles (self_ w') = CareerAdvisor.profiles (self_ w)
   /\ CareerAdvisor.careers (self_ w') = CareerAdvisor.careers (self_ w))
  /\ w' = w
  /\ (forall A (k : M A), (_ <- analyze_profile ;; k) w = k w)
  /\ fst (analyze_profile w') = fst (analyze_profile w).
Proof.
  pose proof (analyze_profile_run w) as E.
  cbv zeta. unfold bind. rewrite E. cbn [snd fst]. rewrite E.
  repeat split; reflexivity.
Qed.

(** C10.  When a technical and a behavioral competency, both valid, have
    the same name up to case, [get_score] returns the score of the
    technical one after both are added, in either order and whatever the
    case of the name asked for. *)
Theorem technical_bucket_takes_precedence
    p nt kt st nb kb sb ct cb q :
  Competency.make nt kt st = inr ct ->
  Competency.make nb kb sb = inr cb ->
  Competency.kind ct = "tecnica" ->
  Competency.kind cb = "comportamental" ->
  lower nt = lower nb ->
  lower q = lower nt ->
  Profile.get_score
    (Profile.add_competency (Profile.add_competency p ct) cb) q = st
  /\ Profile.get_score
       (Profile.add_competency (Profile.add_competency p cb) ct) q = st.
Proof.
  intros Et Eb Hkt Hkb Hn Hq.
  apply make_inr in Et, Eb. destruct Et as [-> _], Eb as [-> _].
  cbn [Competency.kind] in Hkt, Hkb. split.
  - rewrite get_score_add_behavioral
      by (cbn [Competency.kind Competency.name]; congruence).
    rewrite Hq.
    now rewrite (technical_add_technical p
                   (Competency.mk nt (lower kt) st) Hkt).
  - now rewrite get_score_add_technical.
Qed.
End Claims.

(** * The claims on the scenarios *)

Section ScenarioFacts.
#[local] Existing Instance Scenario.ascii_Lower.
Import Scenario.

(** Every triple of a concrete list of requirements is checked in turn. *)
Ltac each_item H :=
  cbn in H;
  repeat (destruct H as [H|H];
          [injection H as <- <- <-; try reflexivity; try discriminate|]);
  try contradiction.

Ltac each_competency H :=
  cbn in H;
  repeat (destruct H as [H|H]; [subst; cbn; split; discriminate|]);
  try contradiction.

(** The recommendation of a career that the registry holds is returned. *)
Ltac pick := first [left; reflexivity | right; pick].

Ltac returned c :=
  apply (analyze_returns _ _ c); vm_compute; pick.

Lemma default_advisor_built :
  Catalog.build_default_advisor = inr default_advisor.
Proof. vm_compute. reflexivity. Qed.

Lemma marina_built : marina = inr marina_profile.
Proof. reflexivity. Qed.

Lemma almost_built : almost = inr almost_profile.
Proof. reflexivity. Qed.

Lemma both_kinds_built : both_kinds = inr both_kinds_profile.
Proof. reflexivity. Qed.

Lemma marina_valid : valid_profile marina_profile.
Proof. intros c H. each_competency H. Defined.


Lemma cientista_positive : positive_requirements cientista_de_dados.
Proof. intros n k s H. each_item H. Defined.

Lemma dba_positive : positive_requirements dba.
Proof. intros n k s H. each_item H. Defined.

Lemma small_advisor_positive c :
  In c (CareerAdvisor.list_careers small_advisor) -> positive_requirements c.
Proof.
  intros H. cbn in H.
  destruct H as [<-|[<-|[]]]; [apply cientista_positive | apply dba_positive].
Defined.


(** The other direction of C1 fails too: a career without requirements has
    all of them met, and scores 0. *)
Lemma career_without_requirements_scores_zero :
  let r := recommend almost_profile generalist in
  In r (analyze generalist_advisor almost_profile)
  /\ meets_all almost_profile (Recommendation.career r)
  /\ Recommendation.match_percentage r == 0.
Proof.
  cbv zeta. split; [returned generalist|].
  split; [|vm_compute; reflexivity].
  intros n k s [].
Qed.


Lemma analyze_ranking_witness :
  PyDict.contains (CareerAdvisor.careers small_advisor)
                  (lower (Career.name generalist)) = false
  /\ CareerAdvisor.list_careers (CareerAdvisor.add_career small_advisor generalist)
     = [cientista_de_dados; dba; generalist]
  /\ StronglySorted ranked (analyze small_advisor marina_profile).
Proof.
  destruct (analyze_ranking small_advisor marina_profile) as [Hs [_ Hadd]].
  split; [reflexivity|]. split; [|exact Hs].
  exact (Hadd generalist eq_refl).
Defined.


(** The hypothesis of C1 and C3 on the thresholds is needed: with a
    negative threshold the total is negative, the percentage leaves
    [0, 100], and a better score lowers it (200 before, 150 after). *)
Lemma negative_threshold_breaks_monotonicity :
  Profile.get_score beginner_profile "a"
    <= Profile.get_score improved_profile "a"
  /\ Recommendation.match_percentage (recommend beginner_profile lopsided)
     == 200
  /\ Recommendation.match_percentage (recommend improved_profile lopsided)
     == 150
  /\ ~ positive_requirements lopsided.
Proof.
  split; [vm_compute; discriminate|].
  split; [vm_compute; reflexivity|]. split; [vm_compute; reflexivity|].
  intros H. specialize (H "b" "tecnica" (-20) (or_intror (or_introl eq_refl))).
  revert H. vm_compute. discriminate.
Qed.


(** C5, counterexample.  A competency is built with score 7.5 and its
    score is then assigned 11: the object holds a score that the
    constructor refuses. *)
Lemma constructed_competency_can_be_reassigned :
  let c := Competency.mk "Python" "tecnica" 7.5 in
  Competency.make "Python" "tecnica" 7.5 = inr c
  /\ Competency.score (set_score c 11) == 11
  /\ ~ Competency.score (set_score c 11) <= 10
  /\ Competency.make "Python" "tecnica" 11
     = inl (ValueError "A nota da competência deve estar entre 0 e 10.").
Proof.
  cbv zeta. split; [reflexivity|]. split; [reflexivity|].
  split; [|reflexivity]. vm_compute. intros H. now apply H.
Qed.

(** C4, counterexample.  A technical competency is added, then a
    behavioral one of the same name: the score returned is the first, not
    the last. *)
Lemma behavioral_after_technical_is_not_retrieved :
  both_kinds = inr both_kinds_profile
  /\ Profile.get_score both_kinds_profile "python" == 3
  /\ ~ Profile.get_score both_kinds_profile "python" == 8.
Proof.
  split; [reflexivity|]. split; [reflexivity|]. discriminate.
Qed.

Lemma last_write_wins_witness :
  let c1 := Competency.mk "python" "comportamental" 3 in
  let c2 := Competency.mk "Python" "comportamental" 8 in
  Competency.make "python" "Comportamental" 3 = inr c1
  /\ Competency.make "Python" "comportamental" 8 = inr c2
  /\ Profile.get_score
       (Profile.add_competency
          (Profile.add_competency (Profile.new "Rui") c1) c2) "PYTHON"
     = 8.
Proof.
  cbv zeta. split; [reflexivity|]. split; [reflexivity|].
  exact (last_write_wins_unless_technical_shadows
           (Profile.new "Rui")
           "python" "Comportamental" 3 "Python" "comportamental" 8
           _ _ "PYTHON"
           eq_refl eq_refl eq_refl eq_refl
           (or_intror (conj eq_refl eq_refl))).
Defined.

Lemma competency_construction_witness :
  Competency.make "Python" "TECNICA" 7.5
  = inr (Competency.mk "Python" "tecnica" 7.5)
  /\ Competency.make "Python" "tecnica" 10.5
     = inl (ValueError "A nota da competência deve estar entre 0 e 10.")
  /\ ~ ((lower "tecnica" = "tecnica" \/ lower "tecnica" = "comportamental")
        /\ 0 <= 10.5 /\ 10.5 <= 10).
Proof.
  split; [reflexivity|]. split; [reflexivity|].
  exact (proj1 (competency_construction "Python" "tecnica" 10.5)).
Defined.

Lemma get_score_absent_witness :
  let cs := [Competency.mk "python" "tecnica" 7.5;
             Competency.mk "comunicacao" "comportamental" 6.5] in
  let p := fold_left Profile.add_competency cs (Profile.new "Marina") in
  Profile.get_score p "Java" = 0
  /\ exists c', In c' cs /\ lower (Competency.name c') = lower "PYTHON"
                /\ Profile.get_score p "PYTHON" = Competency.score c'.
Proof.
  cbv zeta. split.
  - apply (proj1 (get_score_absent_and_case_insensitive "Marina"
                    [Competency.mk "python" "tecnica" 7.5;
                     Competency.mk "comunicacao" "comportamental" 6.5]
                    "Java")).
    intros c [<-|[<-|[]]]; discriminate.
  - apply (proj2 (get_score_absent_and_case_insensitive "Marina"
                    [Competency.mk "python" "tecnica" 7.5;
                     Competency.mk "comunicacao" "comportamental" 6.5]
                    "PYTHON")).
    exists (Competency.mk "python" "tecnica" 7.5).
    split; [now left | reflexivity].
Defined.

Lemma kind_tags_witness :
  Forall2 same_but_kinds
    (CareerAdvisor.list_careers small_advisor)
    (CareerAdvisor.list_careers small_advisor_retagged)
  /\ map outcome (analyze small_advisor marina_profile)
     = map outcome (analyze small_advisor_retagged marina_profile).
Proof.
  assert (H : Forall2 same_but_kinds
                (CareerAdvisor.list_careers small_advisor)
                (CareerAdvisor.list_careers small_advisor_retagged))
    by (repeat constructor).
  split; [exact H|].
  exact (kind_tags_do_not_influence_scoring
           small_advisor small_advisor_retagged marina_profile H).
Defined.

Lemma technical_precedence_witness :
  let ct := Competency.mk "python" "tecnica" 3 in
  let cb := Competency.mk "Python" "comportamental" 8 in
  let p := Profile.new "Rui" in
  Competency.make "python" "TECNICA" 3 = inr ct
  /\ Competency.make "Python" "comportamental" 8 = inr cb
  /\ Profile.get_score
       (Profile.add_competency (Profile.add_competency p ct) cb) "PYTHON" = 3
  /\ Profile.get_score
       (Profile.add_competency (Profile.add_competency p cb) ct) "PYTHON" = 3.
Proof.
  cbv zeta. split; [reflexivity|]. split; [reflexivity|].
  exact (technical_bucket_takes_precedence
           (Profile.new "Rui")
           "python" "TECNICA" 3 "Python" "comportamental" 8 _ _ "PYTHON"
           eq_refl eq_refl eq_refl eq_refl eq_refl eq_refl).
Defined.

(** C8, counterexample.  The seven thresholds add up to 56, not 58, and
    the percentage is not 34.48. *)
Lemma marina_total_is_not_58 :
  let r := recommend marina_profile cientista_de_dados in
  marina = inr marina_profile
  /\ In r (analyze default_advisor marina_profile)
  /\ ~ total_of marina_profile cientista_de_dados == 58
  /\ ~ Recommendation.match_percentage r == 34.48.
Proof.
  cbv zeta. split; [reflexivity|].
  split; [returned cientista_de_dados|].
  split; vm_compute; discriminate.
Qed.

(** C8 (as amended).  The catalog builds; Marina's profile builds; the
    catalog holds the career "Cientista de Dados" with the seven
    requirements of the scenario; for that career the loop ends with
    total 56 and achieved 20; and the recommendation [analyze] returns for
    it has percentage 35.71. *)
Theorem marina_cientista_de_dados :
  let r := recommend marina_profile cientista_de_dados in
  Catalog.build_default_advisor = inr default_advisor
  /\ marina = inr marina_profile
  /\ PyDict.get (CareerAdvisor.careers default_advisor)
                (lower "Cientista de Dados") = Some cientista_de_dados
  /\ total_of marina_profile cientista_de_dados == 56
  /\ achieved_of marina_profile cientista_de_dados == 20
  /\ In r (analyze default_advisor marina_profile)
  /\ Recommendation.career r = cientista_de_dados
  /\ Recommendation.match_percentage r == 35.71.
Proof.
  cbv zeta. split; [vm_compute; reflexivity|]. split; [reflexivity|].
  split; [vm_compute; reflexivity|].
  split; [vm_compute; reflexivity|]. split; [vm_compute; reflexivity|].
  split; [|split; [reflexivity | vm_compute; reflexivity]].
  returned cientista_de_dados.
Qed.
End ScenarioFacts.

(** * Further properties *)

(** ** Dictionaries, continued *)

Module PyDictOrder.
Section Facts.
Context {V : Type}.
Implicit Types (d : PyDict.t V) (k : string) (v : V).

Lemma get_None_keys d k : PyDict.get d k = None <-> ~ In k (PyDict.keys d).
Proof.
  induction d as [|[k' v'] d IH]; cbn; [tauto|].
  destruct (String.eqb_spec k' k) as [->|Hne].
  - split; [discriminate | intros H; exfalso; apply H; now left].
  - rewrite IH. tauto.
Qed.

Lemma contains_keys d k : PyDict.contains d k = true <-> In k (PyDict.keys d).
Proof.
  unfold PyDict.contains. pose proof (get_None_keys d k) as H.
  destruct (PyDict.get d k).
  - split; [intros _|reflexivity].
    destruct (in_dec string_dec k (PyDict.keys d)) as [Hin|Hout]; [exact Hin|].
    apply H in Hout. discriminate.
  - split; [discriminate|]. intros Hin. now apply H in Hin.
Qed.

Lemma get_Some_In d k v : PyDict.get d k = Some v -> In (k, v) (PyDict.items d).
Proof.
  induction d as [|[k' v'] d IH]; cbn; [discriminate|].
  destruct (String.eqb_spec k' k) as [->|Hne].
  - intros H. injection H as ->. now left.
  - intros H. right. now apply IH.
Qed.

Lemma In_get d k v :
  NoDup (PyDict.keys d) -> In (k, v) (PyDict.items d) -> PyDict.get d k = Some v.
Proof.
  induction d as [|[k' v'] d IH]; cbn; [contradiction|].
  intros Hnd [H|H].
  - injection H as -> ->. now rewrite String.eqb_refl.
  - inversion Hnd as [|? ? Hout Hnd']; subst.
    destruct (String.eqb_spec k' k) as [->|Hne].
    + exfalso. apply Hout. change k with (fst (k, v)). now apply in_map.
    + now apply IH.
Qed.

Lemma set_fresh d k v :
  PyDict.get d k = None -> PyDict.set d k v = (d ++ [(k, v)])%list.
Proof.
  induction d as [|[k' v'] d IH]; cbn; [reflexivity|].
  destruct (String.eqb k' k); [discriminate|].
  intros H. now rewrite IH.
Qed.

Lemma keys_set d k v :
  PyDict.keys (PyDict.set d k v)
  = if PyDict.contains d k then PyDict.keys d
    else (PyDict.keys d ++ [k])%list.
Proof.
  unfold PyDict.contains.
  induction d as [|[k' v'] d IH]; cbn; [reflexivity|].
  destruct (String.eqb k' k) eqn:E; cbn; [reflexivity|].
  unfold PyDict.keys in IH. rewrite IH.
  now destruct (PyDict.get d k).
Qed.

Lemma NoDup_keys_set d k v :
  NoDup (PyDict.keys d) -> NoDup (PyDict.keys (PyDict.set d k v)).
Proof.
  intros Hnd. rewrite keys_set.
  destruct (PyDict.contains d k) eqn:E; [exact Hnd|].
  apply NoDup_app; [exact Hnd | repeat constructor; intros [] |].
  intros x Hx [<-|[]].
  apply contains_keys in Hx. congruence.
Qed.

Lemma length_set d k v :
  length (PyDict.set d k v)
  = if PyDict.contains d k then length d else S (length d).
Proof.
  unfold PyDict.contains.
  induction d as [|[k' v'] d IH]; cbn; [reflexivity|].
  destruct (String.eqb k' k) eqn:E; cbn; [reflexivity|].
  rewrite IH. now destruct (PyDict.get d k).
Qed.

Lemma In_set d k v k' v' :
  In (k', v') (PyDict.items (PyDict.set d k v)) ->
  (k' = k /\ v' = v) \/ In (k', v') (PyDict.items d).
Proof.
  induction d as [|[k0 v0] d IH]; cbn.
  - intros [H|[]]. injection H as <- <-. auto.
  - destruct (String.eqb_spec k0 k) as [->|Hne]; cbn.
    + intros [H|H]; [injection H as <- <-; auto | auto].
    + intros [H|H]; [auto|]. destruct (IH H); auto.
Qed.

Lemma set_set d k v : PyDict.set (PyDict.set d k v) k v = PyDict.set d k v.
Proof.
  induction d as [|[k' v'] d IH]; cbn.
  - now rewrite String.eqb_refl.
  - destruct (String.eqb k' k) eqn:E; cbn; rewrite E; [reflexivity|].
    now rewrite IH.
Qed.

(** Writes to different keys can be swapped as far as lookups go. *)
Lemma get_set_set d k1 v1 k2 v2 k :
  k1 <> k2 ->
  PyDict.get (PyDict.set (PyDict.set d k1 v1) k2 v2) k
  = PyDict.get (PyDict.set (PyDict.set d k2 v2) k1 v1) k.
Proof.
  intros Hne.
  destruct (string_dec k1 k) as [<-|H1].
  - rewrite PyDictFacts.get_set_other by congruence.
    now rewrite !PyDictFacts.get_set_same.
  - rewrite (PyDictFacts.get_set_other (PyDict.set d k2 v2) k1 k) by exact H1.
    destruct (string_dec k2 k) as [<-|H2].
    + now rewrite !PyDictFacts.get_set_same.
    + now rewrite !PyDictFacts.get_set_other by assumption.
Qed.
End Facts.
End PyDictOrder.

(** ** models.py, continued *)

Section ModelExtras.
Context {L : Lower}.

(** X1.  The kind is checked before the score: a kind that is not allowed
    raises the message about the kind whatever the score is, and an allowed
    kind with a score outside [0, 10] raises the message about the score. *)
Theorem competency_error_messages n k s :
  (lower k <> "tecnica" -> lower k <> "comportamental" ->
   Competency.make n k s
   = inl (ValueError
            "Tipo de competência deve ser 'tecnica' ou 'comportamental'."))
  /\ (lower k = "tecnica" \/ lower k = "comportamental" ->
      ~ (0 <= s /\ s <= 10) ->
      Competency.make n k s
      = inl (ValueError "A nota da competência deve estar entre 0 e 10.")).
Proof.
  unfold Competency.make. split.
  - intros Ht Hb.
    apply String.eqb_neq in Ht, Hb. now rewrite Ht, Hb.
  - intros Hk Hs.
    assert (E : (String.eqb (lower k) "tecnica"
                 || String.eqb (lower k) "comportamental")%bool = true).
    { destruct Hk as [-> | ->]; reflexivity. }
    rewrite E. cbn [negb].
    destruct (Qle_bool 0 s) eqn:E0; [|reflexivity].
    destruct (Qle_bool s 10) eqn:E1; [|reflexivity].
    exfalso. apply Hs. split; now apply Qle_bool_iff.
Qed.

(** X2.  A competency that was built passes the constructor again and comes
    out the same, when lowercasing leaves the two kind strings alone. *)
Theorem competency_revalidates n k s c :
  lower "tecnica" = "tecnica" ->
  lower "comportamental" = "comportamental" ->
  Competency.make n k s = inr c ->
  Competency.make (Competency.name c) (Competency.kind c) (Competency.score c)
  = inr c.
Proof.
  intros Ht Hb E. apply make_inr in E. destruct E as [-> [Hk [H0 H1]]].
  cbn [Competency.name Competency.kind Competency.score].
  unfold Competency.make.
  assert (Hl : lower (lower k) = lower k) by (destruct Hk as [-> | ->]; auto).
  rewrite Hl.
  assert (E : (String.eqb (lower k) "tecnica"
               || String.eqb (lower k) "comportamental")%bool = true).
  { destruct Hk as [-> | ->]; reflexivity. }
  rewrite E. apply Qle_bool_iff in H0, H1. now rewrite H0, H1.
Qed.

Lemma well_filed_set technical d c :
  String.eqb (Competency.kind c) "tecnica" = technical ->
  well_filed technical d ->
  well_filed technical (PyDict.set d (lower (Competency.name c)) c).
Proof.
  intros Hk [Hnd Hent]. split.
  - now apply PyDictOrder.NoDup_keys_set.
  - intros k c' Hin. apply PyDictOrder.In_set in Hin.
    destruct Hin as [[-> ->]|Hin]; auto.
Qed.

Lemma well_filed_add p c :
  well_filed true (Profile.technical_skills p) ->
  well_filed false (Profile.behavioral_skills p) ->
  well_filed true (Profile.technical_skills (Profile.add_competency p c))
  /\ well_filed false (Profile.behavioral_skills (Profile.add_competency p c)).
Proof.
  intros Ht Hb. unfold Profile.add_competency.
  destruct (String.eqb (Competency.kind c) "tecnica") eqn:E;
    cbn [Profile.technical_skills Profile.behavioral_skills];
    split; auto; now apply well_filed_set.
Qed.

Lemma name_add p c : Profile.name (Profile.add_competency p c) = Profile.name p.
Proof.
  unfold Profile.add_competency.
  now destruct (String.eqb (Competency.kind c) "tecnica").
Qed.

Lemma well_filed_fold cs :
  forall p,
  well_filed true (Profile.technical_skills p) ->
  well_filed false (Profile.behavioral_skills p) ->
  let p' := fold_left Profile.add_competency cs p in
  well_filed true (Profile.technical_skills p')
  /\ well_filed false (Profile.behavioral_skills p')
  /\ Profile.name p' = Profile.name p.
Proof.
  induction cs as [|c cs IH]; intros p Ht Hb; cbn [fold_left]; [auto|].
  destruct (well_filed_add p c Ht Hb) as [Ht' Hb'].
  destruct (IH _ Ht' Hb') as [H1 [H2 H3]].
  split; [exact H1|]. split; [exact H2|].
  cbv zeta in H3 |- *. rewrite H3. apply name_add.
Qed.

Lemma well_filed_empty technical : well_filed technical PyDict.empty.
Proof. split; [constructor | intros k c []]. Qed.

(** X3.  In a profile built from [Profile(name)] by additions, every entry
    of the technical bucket has kind "tecnica", every entry of the other
    bucket has another kind, every entry sits under its lowered name, no
    bucket holds a key twice, and the name of the profile is the one it was
    created with. *)
Theorem buckets_match_kinds nm cs :
  let p := fold_left Profile.add_competency cs (Profile.new nm) in
  (forall k c, In (k, c) (PyDict.items (Profile.technical_skills p)) ->
     Competency.kind c = "tecnica" /\ k = lower (Competency.name c))
  /\ (forall k c, In (k, c) (PyDict.items (Profile.behavioral_skills p)) ->
        Competency.kind c <> "tecnica" /\ k = lower (Competency.name c))
  /\ NoDup (PyDict.keys (Profile.technical_skills p))
  /\ NoDup (PyDict.keys (Profile.behavioral_skills p))
  /\ Profile.name p = nm.
Proof.
  intros p.
  destruct (well_filed_fold cs (Profile.new nm)
              (well_filed_empty true) (well_filed_empty false))
    as [[Hndt Ht] [[Hndb Hb] Hn]].
  fold p in Hndt, Ht, Hndb, Hb, Hn.
  repeat split; auto.
  - destruct (Ht k c H) as [_ E]. now apply String.eqb_eq.
  - now destruct (Ht k c H).
  - destruct (Hb k c H) as [_ E]. now apply String.eqb_neq.
  - now destruct (Hb k c H).
Qed.

(** X4.  Adding the same competency twice in a row is the same as adding
    it once. *)
Theorem add_competency_idempotent p c :
  Profile.add_competency (Profile.add_competency p c) c
  = Profile.add_competency p c.
Proof.
  unfold Profile.add_competency.
  destruct (String.eqb (Competency.kind c) "tecnica");
    cbn [Profile.name Profile.technical_skills Profile.behavioral_skills];
    now rewrite PyDictOrder.set_set.
Qed.

(** X5.  Two competencies with different names, or of which exactly one is
    technical, can be added in either order: every score comes out the
    same. *)
Theorem add_competency_order_irrelevant p c1 c2 q :
  lower (Competency.name c1) <> lower (Competency.name c2)
  \/ String.eqb (Competency.kind c1) "tecnica"
     <> String.eqb (Competency.kind c2) "tecnica" ->
  Profile.get_score
    (Profile.add_competency (Profile.add_competency p c1) c2) q
  = Profile.get_score
      (Profile.add_competency (Profile.add_competency p c2) c1) q.
Proof.
  intros H. unfold Profile.get_score, Profile.add_competency.
  destruct (String.eqb (Competency.kind c1) "tecnica") eqn:E1;
  destruct (String.eqb (Competency.kind c2) "tecnica") eqn:E2;
    cbn [Profile.name Profile.technical_skills Profile.behavioral_skills];
    rewrite ?E1, ?E2;
    cbn [Profile.name Profile.technical_skills Profile.behavioral_skills];
    try reflexivity;
    (destruct H as [H|H]; [|congruence]);
    now rewrite (PyDictOrder.get_set_set _ _ c1 _ c2 (lower q) H).
Qed.

(** X6.  A profile built from [Profile(name)] by adding competencies that
    the constructor returned gives, for every name, a score in [0, 10]. *)
Theorem get_score_within_bounds nm cs q :
  (forall c, In c cs -> exists n k s, Competency.make n k s = inr c) ->
  let p := fold_left Profile.add_competency cs (Profile.new nm) in
  0 <= Profile.get_score p q /\ Profile.get_score p q <= 10.
Proof.
  intros Hcs p. apply get_score_valid. subst p.
  assert (G : forall p0, valid_profile p0 ->
                valid_profile (fold_left Profile.add_competency cs p0)).
  { induction cs as [|c cs IH]; intros p0 Hp0; cbn [fold_left]; [exact Hp0|].
    apply IH; [intros; apply Hcs; now right|].
    apply valid_profile_add; [exact Hp0|].
    destruct (Hcs c (or_introl eq_refl)) as [n [k [s E]]].
    apply make_inr in E. destruct E as [-> [_ [H0 H1]]]. now split. }
  apply G, valid_profile_new.
Qed.

(** X7.  Adding a competency lengthens [list_competencies] by one when its
    lowered name is new in the bucket of its kind, and leaves the length as
    it is otherwise; the competency is listed afterwards. *)
Theorem list_competencies_length p c :
  length (Profile.list_competencies (Profile.add_competency p c))
  = (length (Profile.list_competencies p)
     + if PyDict.contains (bucket_of p c) (lower (Competency.name c))
       then 0 else 1)%nat
  /\ In c (Profile.list_competencies (Profile.add_competency p c)).
Proof.
  split; [|apply list_competencies_added].
  unfold Profile.list_competencies, Profile.add_competency, bucket_of,
    PyDict.values.
  destruct (String.eqb (Competency.kind c) "tecnica");
    cbn [Profile.technical_skills Profile.behavioral_skills];
    rewrite !length_app, !length_map, PyDictOrder.length_set;
    match goal with |- context [PyDict.contains ?d ?k] =>
      destruct (PyDict.contains d k) end; lia.
Qed.
End ModelExtras.

(** ** The registry *)

Section RegistryExtras.
Context {L : Lower}.

Lemma keyed_set {V} (name_of : V -> string) d v :
  keyed name_of d -> keyed name_of (PyDict.set d (lower (name_of v)) v).
Proof.
  intros [Hnd Hent]. split.
  - now apply PyDictOrder.NoDup_keys_set.
  - intros k v' Hin. apply PyDictOrder.In_set in Hin.
    destruct Hin as [[-> ->]|Hin]; auto.
Qed.

Lemma keyed_empty {V} (name_of : V -> string) : keyed name_of PyDict.empty.
Proof. split; [constructor | intros k v []]. Qed.

Lemma reachable_keyed adv :
  reachable adv ->
  keyed Profile.name (CareerAdvisor.profiles adv)
  /\ keyed Career.name (CareerAdvisor.careers adv).
Proof.
  induction 1 as [|adv p _ [IHp IHc]|adv c _ [IHp IHc]|adv n c _ [IHp IHc]];
    cbn [CareerAdvisor.new CareerAdvisor.add_profile CareerAdvisor.add_career
         CareerAdvisor.add_competency_to_profile snd
         CareerAdvisor.profiles CareerAdvisor.careers].
  - split; apply keyed_empty.
  - split; [now apply keyed_set | exact IHc].
  - split; [exact IHp | now apply keyed_set].
  - split; [|exact IHc].
    destruct (PyDict.get (CareerAdvisor.profiles adv) (lower n)) as [p0|] eqn:E.
    + assert (Hk : lower n = lower (Profile.name p0)).
      { apply (proj2 IHp). now apply PyDictOrder.get_Some_In. }
      rewrite Hk, <- (name_add p0 c). now apply keyed_set.
    + replace (lower n)
        with (lower (Profile.name (Profile.add_competency (Profile.new n) c)))
        by now rewrite name_add.
      now apply keyed_set.
Qed.

(** X8.  [get_profile] finds what [add_profile] stored, whatever the case
    of the name asked for; asking for another name gives what the registry
    gave before; a new registry knows no profile; and [add_profile] leaves
    the careers alone. *)
Theorem get_profile_after_add_profile adv p n :
  (lower n = lower (Profile.name p) ->
   CareerAdvisor.get_profile (CareerAdvisor.add_profile adv p) n = Some p)
  /\ (lower n <> lower (Profile.name p) ->
      CareerAdvisor.get_profile (CareerAdvisor.add_profile adv p) n
      = CareerAdvisor.get_profile adv n)
  /\ CareerAdvisor.get_profile CareerAdvisor.new n = None
  /\ CareerAdvisor.list_careers (CareerAdvisor.add_profile adv p)
     = CareerAdvisor.list_careers adv.
Proof.
  unfold CareerAdvisor.get_profile, CareerAdvisor.add_profile.
  cbn [CareerAdvisor.profiles]. repeat split.
  - intros ->. apply PyDictFacts.get_set_same.
  - intros H. apply PyDictFacts.get_set_other. congruence.
Qed.

(** X9.  [add_competency_to_profile] returns the profile it stored:
    [get_profile] finds it under the name given, in any case; it holds the
    competency; it is the profile found there before with the competency
    added, or, when there was none, a profile of that name with only this
    competency; the profiles of other names and the careers are as
    before. *)
Theorem add_competency_to_profile_registers adv n c :
  let p' := fst (CareerAdvisor.add_competency_to_profile adv n c) in
  let adv' := snd (CareerAdvisor.add_competency_to_profile adv n c) in
  (forall n', lower n' = lower n -> CareerAdvisor.get_profile adv' n' = Some p')
  /\ In c (Profile.list_competencies p')
  /\ (forall p0, CareerAdvisor.get_profile adv n = Some p0 ->
        p' = Profile.add_competency p0 c)
  /\ (CareerAdvisor.get_profile adv n = None ->
      Profile.name p' = n /\ Profile.list_competencies p' = [c])
  /\ (forall m, lower m <> lower n ->
        CareerAdvisor.get_profile adv' m = CareerAdvisor.get_profile adv m)
  /\ CareerAdvisor.list_careers adv' = CareerAdvisor.list_careers adv.
Proof.
  cbv zeta.
  unfold CareerAdvisor.add_competency_to_profile, CareerAdvisor.get_profile.
  cbn [fst snd CareerAdvisor.profiles]. repeat split.
  - intros n' ->. apply PyDictFacts.get_set_same.
  - apply list_competencies_added.
  - intros p0 ->. reflexivity.
  - rewrite H. apply name_add.
  - rewrite H. unfold Profile.add_competency, Profile.list_competencies.
    now destruct (String.eqb (Competency.kind c) "tecnica").
  - intros m Hm. apply PyDictFacts.get_set_other. congruence.
Qed.

(** X10.  In a registry obtained from [CareerAdvisor()] by its methods, the
    profile [get_profile] finds has the name asked for, up to case; no two
    careers listed have the same name up to case; and a career listed is
    the one stored under its name. *)
Theorem registry_is_keyed_by_lowered_names adv :
  reachable adv ->
  (forall n p, CareerAdvisor.get_profile adv n = Some p ->
     lower (Profile.name p) = lower n)
  /\ NoDup (map (fun c => lower (Career.name c))
                (CareerAdvisor.list_careers adv))
  /\ (forall c, In c (CareerAdvisor.list_careers adv) ->
        PyDict.get (CareerAdvisor.careers adv) (lower (Career.name c))
        = Some c).
Proof.
  intros H. destruct (reachable_keyed adv H) as [[_ Hp] [Hnd Hc]].
  split; [|split].
  - intros n p E. symmetry. apply Hp.
    now apply PyDictOrder.get_Some_In.
  - unfold CareerAdvisor.list_careers, PyDict.values. rewrite map_map.
    replace (map (fun x => lower (Career.name (snd x)))
                 (CareerAdvisor.careers adv))
      with (PyDict.keys (CareerAdvisor.careers adv)); [exact Hnd|].
    unfold PyDict.keys. apply map_ext_in. intros [k v] Hin. now apply Hc.
  - intros c Hin. unfold CareerAdvisor.list_careers, PyDict.values in Hin.
    apply in_map_iff in Hin. destruct Hin as [[k v] [E Hin]].
    cbn in E. subst v. rewrite <- (Hc k c Hin).
    now apply PyDictOrder.In_get.
Qed.

(** X11.  After [add_career], in such a registry, the career is listed and
    is the only career listed under its name, up to case; the list is one
    longer when the name was new and as long as before otherwise. *)
Theorem add_career_replaces_by_name adv c :
  reachable adv ->
  In c (CareerAdvisor.list_careers (CareerAdvisor.add_career adv c))
  /\ (forall c',
        In c' (CareerAdvisor.list_careers (CareerAdvisor.add_career adv c)) ->
        lower (Career.name c') = lower (Career.name c) -> c' = c)
  /\ length (CareerAdvisor.list_careers (CareerAdvisor.add_career adv c))
     = (length (CareerAdvisor.list_careers adv)
        + if PyDict.contains (CareerAdvisor.careers adv)
                             (lower (Career.name c))
          then 0 else 1)%nat.
Proof.
  intros H.
  destruct (reachable_keyed _ (reachable_add_career adv c H)) as [_ [Hnd Hc]].
  assert (Hget : PyDict.get
                   (CareerAdvisor.careers (CareerAdvisor.add_career adv c))
                   (lower (Career.name c)) = Some c)
    by apply PyDictFacts.get_set_same.
  split; [|split].
  - eapply PyDictFacts.get_In, Hget.
  - intros c' Hin E.
    unfold CareerAdvisor.list_careers, PyDict.values in Hin.
    apply in_map_iff in Hin. destruct Hin as [[k v] [Ev Hin]].
    cbn in Ev. subst v.
    assert (Hk : k = lower (Career.name c')) by now apply Hc.
    apply (PyDictOrder.In_get _ _ _ Hnd) in Hin.
    rewrite Hk, E, Hget in Hin. now injection Hin.
  - unfold CareerAdvisor.list_careers, CareerAdvisor.add_career, PyDict.values.
    cbn [CareerAdvisor.careers].
    rewrite !length_map, PyDictOrder.length_set.
    destruct (PyDict.contains _ _); lia.
Qed.
End RegistryExtras.

(** ** The analysis, continued *)

Section AnalysisExtras.
Context {L : Lower}.

(** X12.  [analyze] returns one recommendation for each career of the
    registry, none left out whatever its percentage, each carrying the
    profile analysed; with no career it returns the empty list. *)
Theorem analyze_one_recommendation_per_career adv p :
  Permutation (map Recommendation.career (analyze adv p))
              (CareerAdvisor.list_careers adv)
  /\ length (analyze adv p) = length (CareerAdvisor.list_careers adv)
  /\ (forall r, In r (analyze adv p) -> Recommendation.profile r = p)
  /\ analyze CareerAdvisor.new p = [].
Proof.
  assert (Hperm : Permutation (analyze adv p)
                    (map (recommend p) (CareerAdvisor.list_careers adv)))
    by (rewrite analyze_eq; apply sort_desc_perm).
  split; [|split; [|split]].
  - rewrite (Permutation_map Recommendation.career Hperm), map_map.
    cbn [recommend Recommendation.career]. now rewrite map_id.
  - rewrite (Permutation_length Hperm). apply length_map.
  - intros r Hr. apply analyze_In in Hr. now destruct Hr as [c [_ ->]].
  - now rewrite analyze_eq.
Qed.

(** X13.  Adding a career under a new name adds its recommendation to the
    analysis and changes no other: the result is, up to order, the result
    before together with the result for the new career alone. *)
Theorem analyze_after_add_career adv c p :
  PyDict.contains (CareerAdvisor.careers adv) (lower (Career.name c)) = false ->
  Permutation
    (analyze (CareerAdvisor.add_career adv c) p)
    (analyze adv p
       ++ analyze (CareerAdvisor.add_career CareerAdvisor.new c) p).
Proof.
  intros Hfresh. rewrite !analyze_eq.
  rewrite !(sort_desc_perm Recommendation.match_percentage).
  unfold CareerAdvisor.list_careers, CareerAdvisor.add_career.
  cbn [CareerAdvisor.careers].
  rewrite PyDictFacts.values_set_fresh by exact Hfresh.
  now rewrite map_app.
Qed.

(** *** The [missing] map *)

Lemma requirement_names c :
  map (fun item : string * string * Q => fst (fst item))
      (Career.required_items c)
  = PyDict.keys (Career.required_competencies c).
Proof.
  unfold Career.required_items, PyDict.items, PyDict.keys.
  rewrite map_map. apply map_ext. now intros [n [k s]].
Qed.

Lemma fold_missing_nil p items :
  forall missing total achieved,
  fst (fst (fold_left (requirement_step p) items (missing, total, achieved)))
    = []
  <-> missing = [] /\ forall item, In item items -> unmet p item = false.
Proof.
  induction items as [|[[n k] s] items IH]; intros missing total achieved.
  - cbn. split; [intros ->; split; [reflexivity | intros ? []] | tauto].
  - cbn [fold_left requirement_step]. rewrite IH.
    destruct (Qltb (Profile.get_score p n) s) eqn:E.
    + split.
      * intros [Habs _]. exfalso. destruct missing as [|[k0 v0] m]; cbn in Habs;
          [discriminate|]. destruct (String.eqb k0 n); discriminate.
      * intros [_ H]. specialize (H (n, k, s) (or_introl eq_refl)).
        cbn in H. congruence.
    + split.
      * intros [-> H]. split; [reflexivity|].
        intros item [<-|Hin]; [exact E | now apply H].
      * intros [-> H]. split; [reflexivity|]. intros item Hin. apply H. now right.
Qed.

Lemma fold_missing_closed p items :
  forall missing total achieved,
  NoDup (map (fun item : string * string * Q => fst (fst item)) items) ->
  (forall item, In item items -> PyDict.get missing (fst (fst item)) = None) ->
  fst (fst (fold_left (requirement_step p) items (missing, total, achieved)))
  = (missing ++ map (shortfall p) (filter (unmet p) items))%list.
Proof.
  induction items as [|[[n k] s] items IH]; intros missing total achieved Hnd Hout.
  - cbn. now rewrite app_nil_r.
  - cbn [fold_left requirement_step filter unmet]. cbn [map fst] in Hnd.
    inversion Hnd as [|? ? Hn Hnd']; subst.
    rewrite IH; [|exact Hnd'|].
    + destruct (Qltb (Profile.get_score p n) s); [|reflexivity].
      rewrite PyDictOrder.set_fresh
        by (apply (Hout (n, k, s)); now left).
      cbn [map shortfall]. now rewrite <- app_assoc.
    + intros item Hin.
      assert (Hne : n <> fst (fst item)).
      { intros E. apply Hn. rewrite E.
        apply (in_map (fun i : string * string * Q => fst (fst i))), Hin. }
      destruct (Qltb (Profile.get_score p n) s).
      * rewrite PyDictFacts.get_set_other by exact Hne. apply Hout. now right.
      * apply Hout. now right.
Qed.

Lemma missing_of_closed p c :
  distinct_requirements c ->
  missing_of p c
  = map (shortfall p) (filter (unmet p) (Career.required_items c)).
Proof.
  intros Hd. unfold missing_of, career_locals.
  rewrite fold_missing_closed; [reflexivity| |reflexivity].
  now rewrite requirement_names.
Qed.

Lemma unmet_false_iff p n k s :
  unmet p (n, k, s) = false <-> s <= Profile.get_score p n.
Proof. apply Qltb_ge. Qed.

(** X14.  A recommendation has an empty [missing] map exactly when the
    profile reaches the threshold of every requirement of the career. *)
Theorem missing_empty_iff_all_met adv p r :
  In r (analyze adv p) ->
  Recommendation.missing_competencies r = []
  <-> meets_all p (Recommendation.career r).
Proof.
  intros Hr. apply analyze_In in Hr. destruct Hr as [c [_ ->]].
  cbn [recommend Recommendation.missing_competencies Recommendation.career].
  unfold missing_of, career_locals. rewrite fold_missing_nil. split.
  - intros [_ H] n k s Hin. apply (unmet_false_iff p n k s), H, Hin.
  - intros H. split; [reflexivity|]. intros [[n k] s] Hin.
    apply unmet_false_iff. eapply H, Hin.
Qed.

(** X15.  When the requirement names of the career are distinct, the
    [missing] map lists, in the order of the requirements, exactly the
    requirements the profile does not reach, each with the threshold minus
    the score. *)
Theorem missing_lists_unmet_requirements_in_order adv p r :
  In r (analyze adv p) ->
  distinct_requirements (Recommendation.career r) ->
  Recommendation.missing_competencies r
  = map (shortfall p)
        (filter (unmet p) (Career.required_items (Recommendation.career r))).
Proof.
  intros Hr Hd. apply analyze_In in Hr. destruct Hr as [c [_ ->]].
  cbn [recommend Recommendation.missing_competencies Recommendation.career] in *.
  now apply missing_of_closed.
Qed.

Lemma fold_missing_entries p (all : list (string * string * Q)) items :
  (forall item, In item items -> In item all) ->
  forall missing total achieved,
  (forall n d, In (n, d) (PyDict.items missing) ->
     exists k s, In (n, k, s) all /\ Profile.get_score p n < s
                 /\ d = s - Profile.get_score p n) ->
  forall n d,
    In (n, d)
       (PyDict.items
          (fst (fst (fold_left (requirement_step p) items
                       (missing, total, achieved))))) ->
    exists k s, In (n, k, s) all /\ Profile.get_score p n < s
                /\ d = s - Profile.get_score p n.
Proof.
  induction items as [|[[m k] s] items IH]; intros Hsub missing total achieved Hm;
    [exact Hm|].
  cbn [fold_left requirement_step]. apply IH; [intros; apply Hsub; now right|].
  destruct (Qltb (Profile.get_score p m) s) eqn:E; [|exact Hm].
  intros n d Hin. apply PyDictOrder.In_set in Hin.
  destruct Hin as [[-> ->]|Hin]; [|now apply Hm].
  exists k, s. split; [apply Hsub; now left|]. split; [|reflexivity].
  now apply Qltb_lt.
Qed.

(** X16.  Every entry of a [missing] map belongs to a requirement of the
    career that the profile does not reach; its value is the threshold
    minus the score, and is positive. *)
Theorem missing_entries_are_positive_shortfalls adv p r n d :
  In r (analyze adv p) ->
  In (n, d) (PyDict.items (Recommendation.missing_competencies r)) ->
  0 < d
  /\ exists k s,
       In (n, k, s) (Career.required_items (Recommendation.career r))
       /\ Profile.get_score p n < s
       /\ d = s - Profile.get_score p n.
Proof.
  intros Hr Hin. apply analyze_In in Hr. destruct Hr as [c [_ ->]].
  cbn [recommend Recommendation.missing_competencies Recommendation.career] in *.
  unfold missing_of, career_locals in Hin.
  apply (fold_missing_entries p (Career.required_items c)) in Hin;
    [|auto|intros ? ? []].
  destruct Hin as [k [s [Hin [Hlt ->]]]].
  split; [lra | eauto].
Qed.

Lemma get_score_new nm q : Profile.get_score (Profile.new nm) q = 0.
Proof. reflexivity. Qed.

Lemma sum_achieved_new nm items :
  (forall n k s, In (n, k, s) items -> 0 < s) ->
  sum_achieved (Profile.new nm) items == 0.
Proof.
  induction items as [|[[n k] s] items IH]; intros Hp; [reflexivity|].
  cbn [sum_achieved]. rewrite get_score_new.
  rewrite Q.min_l by (apply Qlt_le_weak, (Hp n k); now left).
  rewrite IH by (intros; eapply Hp; right; eauto). ring.
Qed.

Lemma shortfalls_new nm items :
  (forall n k s, In (n, k, s) items -> 0 < s) ->
  map (shortfall (Profile.new nm)) (filter (unmet (Profile.new nm)) items)
  = map (fun '(n, _, s) => (n, s - 0)) items.
Proof.
  induction items as [|[[n k] s] items IH]; intros Hp; [reflexivity|].
  cbn [filter unmet]. rewrite get_score_new.
  assert (E : Qltb 0 s = true) by (apply Qltb_lt, (Hp n k); now left).
  rewrite E. cbn [map shortfall]. rewrite get_score_new.
  f_equal. apply IH. intros; eapply Hp; right; eauto.
Qed.

(** X17.  A profile without competencies gets 0 for every career whose
    thresholds are positive, and, when the requirement names are distinct,
    a [missing] map with every requirement at its full threshold. *)
Theorem empty_profile_scores_zero adv nm r :
  In r (analyze adv (Profile.new nm)) ->
  positive_requirements (Recommendation.career r) ->
  Recommendation.match_percentage r = 0
  /\ (distinct_requirements (Recommendation.career r) ->
      Recommendation.missing_competencies r
      = map (fun '(n, _, s) => (n, s - 0))
            (Career.required_items (Recommendation.career r))).
Proof.
  intros Hr Hpos. apply analyze_In in Hr. destruct Hr as [c [_ ->]].
  cbn [recommend Recommendation.missing_competencies Recommendation.career
       Recommendation.match_percentage] in *.
  split.
  - change (round2 (raw_match (Profile.new nm) c) = round2 0).
    apply round2_comp.
    destruct (raw_match_cases (Profile.new nm) c) as [[_ ->]|[Hnz ->]];
      [reflexivity|].
    rewrite (sum_achieved_new nm _ Hpos). field. exact Hnz.
  - intros Hd. rewrite (missing_of_closed _ c Hd).
    now apply shortfalls_new.
Qed.
End AnalysisExtras.

Section SurplusAndAdvice.
Context {L : Lower}.

Lemma get_score_lower p m n :
  lower m = lower n -> Profile.get_score p m = Profile.get_score p n.
Proof. intros E. unfold Profile.get_score. now rewrite E. Qed.

Lemma fold_missing_ext p p' items :
  (forall item, In item items ->
     unmet p' item = unmet p item
     /\ (unmet p item = true -> shortfall p' item = shortfall p item)) ->
  forall missing total achieved total' achieved',
  fst (fst (fold_left (requirement_step p') items (missing, total', achieved')))
  = fst (fst (fold_left (requirement_step p) items (missing, total, achieved))).
Proof.
  induction items as [|[[n k] s] items IH]; intros Hext; [reflexivity|].
  intros missing total achieved total' achieved'.
  cbn [fold_left requirement_step].
  destruct (Hext (n, k, s) (or_introl eq_refl)) as [Hu Hs]. cbn in Hu, Hs.
  rewrite Hu.
  destruct (Qltb (Profile.get_score p n) s).
  - assert (E : s - Profile.get_score p' n = s - Profile.get_score p n)
      by exact (f_equal snd (Hs eq_refl)).
    rewrite E. apply IH. intros; apply Hext; now right.
  - apply IH. intros; apply Hext; now right.
Qed.

Lemma sum_achieved_surplus p p' n items :
  (forall m k s, In (m, k, s) items -> lower m = lower n ->
     s <= Profile.get_score p n) ->
  Profile.get_score p n <= Profile.get_score p' n ->
  (forall q, lower q <> lower n ->
     Profile.get_score p' q = Profile.get_score p q) ->
  sum_achieved p' items == sum_achieved p items.
Proof.
  intros Hcap Hup Hsame.
  induction items as [|[[m k] s] items IH]; [reflexivity|].
  cbn [sum_achieved].
  rewrite IH by (intros; eapply Hcap; [right|]; eauto).
  destruct (string_dec (lower m) (lower n)) as [E|Hne].
  - pose proof (Hcap m k s (or_introl eq_refl) E) as Hs.
    rewrite !(get_score_lower _ m n E).
    rewrite !Q.min_r; [reflexivity | exact Hs | lra].
  - now rewrite (Hsame m Hne).
Qed.

(** X18.  A score at or above every threshold of its name earns nothing
    more when it grows: the percentage and the [missing] map of the career
    stay the same. *)
Theorem surplus_earns_nothing adv p p' n r r' :
  In r (analyze adv p) -> In r' (analyze adv p') ->
  Recommendation.career r' = Recommendation.career r ->
  (forall m k s,
     In (m, k, s) (Career.required_items (Recommendation.career r)) ->
     lower m = lower n -> s <= Profile.get_score p n) ->
  Profile.get_score p n <= Profile.get_score p' n ->
  (forall q, lower q <> lower n ->
     Profile.get_score p' q = Profile.get_score p q) ->
  Recommendation.match_percentage r' = Recommendation.match_percentage r
  /\ Recommendation.missing_competencies r'
     = Recommendation.missing_competencies r.
Proof.
  intros Hr Hr' Ec Hcap Hup Hsame.
  apply analyze_In in Hr, Hr'.
  destruct Hr as [c [_ ->]], Hr' as [c' [_ ->]].
  cbn [recommend Recommendation.career] in Ec, Hcap. subst c'.
  cbn [recommend Recommendation.match_percentage
       Recommendation.missing_competencies].
  pose proof (sum_achieved_surplus p p' n _ Hcap Hup Hsame) as Ha.
  split.
  - apply round2_comp.
    destruct (raw_match_cases p c) as [[Hz ->]|[Hnz ->]];
    destruct (raw_match_cases p' c) as [[Hz' ->]|[Hnz' ->]];
      try contradiction; [reflexivity|].
    now rewrite Ha.
  - unfold missing_of, career_locals. apply fold_missing_ext.
    intros [[m k] s] Hin. cbn [unmet shortfall].
    destruct (string_dec (lower m) (lower n)) as [E|Hne].
    + pose proof (Hcap m k s Hin E) as Hs.
      rewrite !(get_score_lower _ m n E). split.
      * transitivity false; [|symmetry]; apply Qltb_ge; [lra | exact Hs].
      * intros Hu. apply Qltb_lt in Hu. lra.
    + now rewrite (Hsame m Hne).
Qed.
End SurplusAndAdvice.

Section AdviceExtras.
Context {L : Lower} {F : Format1f}.

Lemma suggest_improvements_eq r :
  suggest_improvements r
  = match Recommendation.missing_competencies r with
    | [] => [satisfied_message]
    | missing =>
        map (suggestion (Career.name (Recommendation.career r))) missing
    end.
Proof.
  unfold suggest_improvements, PyDict.items. rewrite fold_left_snoc.
  now destruct (Recommendation.missing_competencies r).
Qed.

(** X19.  [suggest_improvements] never returns an empty list: it returns
    one line for each entry of the [missing] map, in the order of the map,
    and the one line saying that the requirements are met when the map is
    empty. *)
Theorem suggestions_one_per_shortfall r :
  suggest_improvements r <> []
  /\ length (suggest_improvements r)
     = Nat.max 1 (length (Recommendation.missing_competencies r))
  /\ (Recommendation.missing_competencies r <> [] ->
      suggest_improvements r
      = map (suggestion (Career.name (Recommendation.career r)))
            (PyDict.items (Recommendation.missing_competencies r)))
  /\ (Recommendation.missing_competencies r = [] ->
      suggest_improvements r = [satisfied_message]).
Proof.
  rewrite suggest_improvements_eq.
  destruct (Recommendation.missing_competencies r) as [|e m]; cbn.
  - repeat split; congruence.
  - repeat split; try congruence. now rewrite length_map.
Qed.

(** X20.  For a recommendation that [analyze] returned, the advice is the
    single line saying that the requirements are met exactly when the
    profile reaches every threshold of the career. *)
Theorem advice_says_satisfied_iff_all_met adv p r :
  In r (analyze adv p) ->
  suggest_improvements r = [satisfied_message]
  <-> meets_all p (Recommendation.career r).
Proof.
  intros Hr. rewrite suggest_improvements_eq.
  assert (Hm : Recommendation.missing_competencies r = []
               <-> meets_all p (Recommendation.career r)).
  { apply analyze_In in Hr. destruct Hr as [c [_ ->]].
    cbn [recommend Recommendation.missing_competencies Recommendation.career].
    unfold missing_of, career_locals. rewrite fold_missing_nil. split.
    - intros [_ H] n k s Hin. apply (unmet_false_iff p n k s), H, Hin.
    - intros H. split; [reflexivity|]. intros [[n k] s] Hin.
      apply unmet_false_iff. eapply H, Hin. }
  rewrite <- Hm.
  destruct (Recommendation.missing_competencies r) as [|[n d] m].
  - tauto.
  - split; [|discriminate]. cbn [map suggestion]. intros H.
    injection H as H _. cbn in H. discriminate.
Qed.
End AdviceExtras.

(** ** The default catalog *)

Section CatalogExtras.
Context {L : Lower}.

Lemma positive_requirementsb_sound c :
  positive_requirementsb c = true -> positive_requirements c.
Proof.
  unfold positive_requirementsb, positive_requirements.
  rewrite forallb_forall. intros H n k s Hin.
  apply Qltb_lt. apply (H (n, k, s) Hin).
Qed.

Lemma distinctb_sound l : distinctb l = true -> NoDup l.
Proof.
  induction l as [|x l IH]; cbn; [constructor|].
  rewrite andb_true_iff, negb_true_iff. intros [Hx Hl].
  constructor; [|now apply IH].
  intros Hin. apply not_true_iff_false in Hx. apply Hx.
  apply existsb_exists. exists x. split; [exact Hin | apply String.eqb_refl].
Qed.

Lemma distinct_requirementsb_sound c :
  distinct_requirementsb c = true -> distinct_requirements c.
Proof. apply distinctb_sound. Qed.

Lemma add_careers_sound data :
  forallb catalog_row_ok data = true ->
  forall adv,
  reachable adv ->
  (forall c, In c (CareerAdvisor.list_careers adv) ->
     positive_requirements c /\ distinct_requirements c) ->
  exists adv',
    Catalog.add_careers data adv = inr adv'
    /\ reachable adv'
    /\ forall c, In c (CareerAdvisor.list_careers adv') ->
         positive_requirements c /\ distinct_requirements c.
Proof.
  induction data as [|[name comps] data IH]; intros Hok adv Hreach Hadv.
  - exists adv. auto.
  - cbn [forallb] in Hok. apply andb_true_iff in Hok. destruct Hok as [Hrow Hok].
    unfold catalog_row_ok in Hrow. cbn [fst snd] in Hrow.
    cbn [Catalog.add_careers].
    destruct (Catalog.required_of comps PyDict.empty) as [e|required];
      [discriminate|].
    apply andb_true_iff in Hrow. destruct Hrow as [Hpos Hdist].
    apply (IH Hok); [now constructor|].
    intros c Hin.
    unfold CareerAdvisor.list_careers, CareerAdvisor.add_career in Hin.
    cbn [CareerAdvisor.careers] in Hin.
    apply PyDictFacts.values_set_In in Hin. destruct Hin as [->|Hin].
    + split; [now apply positive_requirementsb_sound
             | now apply distinct_requirementsb_sound].
    + now apply Hadv.
Qed.

(** X21.  [build_default_advisor] raises no [KeyError]; the registry it
    returns is one the methods produce, every career in it has positive
    thresholds and distinct requirement names, and so, for every valid
    profile, every percentage [analyze] reports on it is in [0, 100]. *)
Theorem default_advisor_is_well_formed :
  exists adv,
    Catalog.build_default_advisor = inr adv
    /\ reachable adv
    /\ (forall c, In c (CareerAdvisor.list_careers adv) ->
          positive_requirements c /\ distinct_requirements c)
    /\ forall p r,
         valid_profile p -> In r (analyze adv p) ->
         0 <= Recommendation.match_percentage r
         /\ Recommendation.match_percentage r <= 100.
Proof.
  destruct (add_careers_sound Catalog.careers_data)
    with (adv := CareerAdvisor.new) as [adv [E [Hreach Hall]]].
  - vm_compute. reflexivity.
  - constructor.
  - intros c [].
  - exists adv. split; [exact E|]. split; [exact Hreach|].
    split; [exact Hall|].
    intros p r Hp Hr. apply analyze_In in Hr. destruct Hr as [c [Hc ->]].
    cbn [recommend Recommendation.match_percentage].
    apply round2_range, raw_match_range; [exact Hp | now apply Hall].
Qed.
End CatalogExtras.

(** ** Further properties on the scenarios *)

Section ExampleFacts.
#[local] Existing Instance Scenario.ascii_Lower.
#[local] Existing Instance Examples.decimal_Format.
Import Scenario Examples.

Ltac pick_one := first [left; reflexivity | right; pick_one].

Lemma small_advisor_reachable : reachable small_advisor.
Proof. repeat constructor. Defined.

Lemma session_reachable : reachable session.
Proof. repeat constructor. Defined.

Lemma dba_distinct : distinct_requirements dba.
Proof. apply distinct_requirementsb_sound. reflexivity. Defined.

Lemma cientista_distinct : distinct_requirements cientista_de_dados.
Proof. apply distinct_requirementsb_sound. reflexivity. Defined.

Lemma competency_error_messages_witness :
  Competency.make "Python" "hobby" 11
  = inl (ValueError
           "Tipo de competência deve ser 'tecnica' ou 'comportamental'.")
  /\ Competency.make "Python" "Tecnica" 11
     = inl (ValueError "A nota da competência deve estar entre 0 e 10.").
Proof.
  split.
  - apply (proj1 (competency_error_messages "Python" "hobby" 11));
      discriminate.
  - apply (proj2 (competency_error_messages "Python" "Tecnica" 11)).
    + left. reflexivity.
    + intros [_ H]. revert H. vm_compute. intros H. now apply H.
Defined.

Lemma competency_revalidates_witness :
  Competency.make "Python" "TECNICA" 7.5
  = inr (Competency.mk "Python" "tecnica" 7.5)
  /\ Competency.make "Python" "tecnica" 7.5
     = inr (Competency.mk "Python" "tecnica" 7.5).
Proof.
  split; [reflexivity|].
  exact (competency_revalidates "Python" "TECNICA" 7.5
           (Competency.mk "Python" "tecnica" 7.5) eq_refl eq_refl eq_refl).
Defined.

Lemma buckets_match_kinds_witness :
  In ("python", Competency.mk "Python" "tecnica" 7.5)
     (PyDict.items
        (Profile.technical_skills
           (fold_left Profile.add_competency
              [Competency.mk "Python" "tecnica" 7.5] (Profile.new "Marina"))))
  /\ Competency.kind (Competency.mk "Python" "tecnica" 7.5) = "tecnica"
  /\ "python" = lower (Competency.name (Competency.mk "Python" "tecnica" 7.5)).
Proof.
  assert (Hin : In ("python", Competency.mk "Python" "tecnica" 7.5)
                  (PyDict.items
                     (Profile.technical_skills
                        (fold_left Profile.add_competency
                           [Competency.mk "Python" "tecnica" 7.5]
                           (Profile.new "Marina")))))
    by (left; reflexivity).
  split; [exact Hin|].
  exact (proj1 (buckets_match_kinds "Marina"
                  [Competency.mk "Python" "tecnica" 7.5]) _ _ Hin).
Defined.

Lemma add_competency_order_witness :
  let c1 := Competency.mk "python" "tecnica" 7.5 in
  let c2 := Competency.mk "sql" "tecnica" 6 in
  lower (Competency.name c1) <> lower (Competency.name c2)
  /\ Profile.get_score
       (Profile.add_competency
          (Profile.add_competency (Profile.new "Ana") c1) c2) "SQL"
     = Profile.get_score
         (Profile.add_competency
            (Profile.add_competency (Profile.new "Ana") c2) c1) "SQL".
Proof.
  cbv zeta.
  assert (H : lower "python" <> lower "sql") by discriminate.
  split; [exact H|].
  exact (add_competency_order_irrelevant (Profile.new "Ana")
           (Competency.mk "python" "tecnica" 7.5)
           (Competency.mk "sql" "tecnica" 6) "SQL" (or_introl H)).
Defined.

Lemma get_score_within_bounds_witness :
  let cs := [Competency.mk "python" "tecnica" 7.5;
             Competency.mk "comunicacao" "comportamental" 6.5] in
  let p := fold_left Profile.add_competency cs (Profile.new "Marina") in
  (forall c, In c cs -> exists n k s, Competency.make n k s = inr c)
  /\ 0 <= Profile.get_score p "Python" /\ Profile.get_score p "Python" <= 10.
Proof.
  cbv zeta.
  assert (H : forall c,
            In c [Competency.mk "python" "tecnica" 7.5;
                  Competency.mk "comunicacao" "comportamental" 6.5] ->
            exists n k s, Competency.make n k s = inr c).
  { intros c [<-|[<-|[]]].
    - exists "python", "tecnica", 7.5. reflexivity.
    - exists "comunicacao", "comportamental", 6.5. reflexivity. }
  split; [exact H|].
  exact (get_score_within_bounds "Marina" _ "Python" H).
Defined.

Lemma get_profile_witness :
  CareerAdvisor.get_profile
    (CareerAdvisor.add_profile CareerAdvisor.new (Profile.new "Ana")) "ANA"
  = Some (Profile.new "Ana")
  /\ CareerAdvisor.get_profile
       (CareerAdvisor.add_profile CareerAdvisor.new (Profile.new "Ana")) "Rui"
     = CareerAdvisor.get_profile CareerAdvisor.new "Rui".
Proof.
  destruct (get_profile_after_add_profile
              CareerAdvisor.new (Profile.new "Ana") "ANA") as [H1 _].
  destruct (get_profile_after_add_profile
              CareerAdvisor.new (Profile.new "Ana") "Rui") as [_ [H2 _]].
  split; [apply H1; reflexivity | apply H2; discriminate].
Defined.

Lemma add_competency_to_profile_witness :
  let c := Competency.mk "SQL" "tecnica" 6.5 in
  let call := CareerAdvisor.add_competency_to_profile CareerAdvisor.new "Ana" c in
  CareerAdvisor.get_profile CareerAdvisor.new "Ana" = None
  /\ CareerAdvisor.get_profile (snd call) "ANA" = Some (fst call)
  /\ Profile.name (fst call) = "Ana"
  /\ Profile.list_competencies (fst call) = [c].
Proof.
  cbv zeta.
  destruct (add_competency_to_profile_registers
              CareerAdvisor.new "Ana" (Competency.mk "SQL" "tecnica" 6.5))
    as [Hget [_ [_ [Hnew _]]]].
  split; [reflexivity|]. split; [apply Hget; reflexivity|].
  apply Hnew. reflexivity.
Defined.

Lemma registry_keys_witness :
  reachable session
  /\ CareerAdvisor.get_profile session "ANA"
     = Some (Profile.add_competency (Profile.new "Ana")
               (Competency.mk "SQL" "tecnica" 6.5))
  /\ lower (Profile.name
              (Profile.add_competency (Profile.new "Ana")
                 (Competency.mk "SQL" "tecnica" 6.5)))
     = lower "ANA".
Proof.
  split; [exact session_reachable|]. split; [reflexivity|].
  exact (proj1 (registry_is_keyed_by_lowered_names session session_reachable)
           "ANA" _ eq_refl).
Defined.

Lemma add_career_replaces_witness :
  let dba' := Career.mk "dba" [("sql", ("tecnica", 9))] in
  reachable small_advisor
  /\ In dba'
       (CareerAdvisor.list_careers (CareerAdvisor.add_career small_advisor dba'))
  /\ length
       (CareerAdvisor.list_careers (CareerAdvisor.add_career small_advisor dba'))
     = 2%nat.
Proof.
  cbv zeta.
  destruct (add_career_replaces_by_name small_advisor
              (Career.mk "dba" [("sql", ("tecnica", 9))])
              small_advisor_reachable) as [Hin [_ Hlen]].
  split; [exact small_advisor_reachable|]. split; [exact Hin|].
  rewrite Hlen. reflexivity.
Defined.

Lemma analyze_one_per_career_witness :
  In (recommend marina_profile dba) (analyze small_advisor marina_profile)
  /\ Recommendation.profile (recommend marina_profile dba) = marina_profile
  /\ length (analyze small_advisor marina_profile) = 2%nat.
Proof.
  assert (Hin : In (recommend marina_profile dba)
                   (analyze small_advisor marina_profile))
    by (apply (analyze_returns _ _ dba); vm_compute; pick_one).
  destruct (analyze_one_recommendation_per_career small_advisor marina_profile)
    as [_ [Hlen [Hp _]]].
  split; [exact Hin|]. split; [exact (Hp _ Hin)|].
  rewrite Hlen. reflexivity.
Defined.

Lemma analyze_after_add_career_witness :
  PyDict.contains (CareerAdvisor.careers small_advisor)
                  (lower (Career.name generalist)) = false
  /\ Permutation
       (analyze (CareerAdvisor.add_career small_advisor generalist)
                marina_profile)
       (analyze small_advisor marina_profile
          ++ analyze (CareerAdvisor.add_career CareerAdvisor.new generalist)
                     marina_profile).
Proof.
  split; [reflexivity|].
  exact (analyze_after_add_career small_advisor generalist marina_profile
           eq_refl).
Defined.

Lemma expert_returned :
  In (recommend expert_profile dba) (analyze dba_advisor expert_profile).
Proof. apply (analyze_returns _ _ dba). vm_compute. pick_one. Defined.

Lemma marina_dba_returned :
  In (recommend marina_profile dba) (analyze small_advisor marina_profile).
Proof. apply (analyze_returns _ _ dba). vm_compute. pick_one. Defined.

Lemma expert_meets_all : meets_all expert_profile dba.
Proof.
  intros n k s [H|[]]. injection H as <- <- <-. vm_compute. discriminate.
Defined.

Lemma missing_empty_witness :
  In (recommend expert_profile dba) (analyze dba_advisor expert_profile)
  /\ meets_all expert_profile dba
  /\ Recommendation.missing_competencies (recommend expert_profile dba) = [].
Proof.
  split; [exact expert_returned|]. split; [exact expert_meets_all|].
  exact (proj2 (missing_empty_iff_all_met dba_advisor expert_profile _
                  expert_returned) expert_meets_all).
Defined.

Lemma missing_in_order_witness :
  In (recommend marina_profile dba) (analyze small_advisor marina_profile)
  /\ distinct_requirements dba
  /\ Recommendation.missing_competencies (recommend marina_profile dba)
     = map (shortfall marina_profile)
           (filter (unmet marina_profile) (Career.required_items dba)).
Proof.
  split; [exact marina_dba_returned|]. split; [exact dba_distinct|].
  exact (missing_lists_unmet_requirements_in_order
           small_advisor marina_profile _ marina_dba_returned dba_distinct).
Defined.

Lemma missing_entries_witness :
  In (recommend marina_profile dba) (analyze small_advisor marina_profile)
  /\ In ("sql", 8)
        (PyDict.items
           (Recommendation.missing_competencies (recommend marina_profile dba)))
  /\ 0 < 8.
Proof.
  assert (Hin : In ("sql", 8)
                  (PyDict.items
                     (Recommendation.missing_competencies
                        (recommend marina_profile dba))))
    by (vm_compute; pick_one).
  split; [exact marina_dba_returned|]. split; [exact Hin|].
  exact (proj1 (missing_entries_are_positive_shortfalls
                  small_advisor marina_profile _ "sql" 8
                  marina_dba_returned Hin)).
Defined.

Lemma empty_profile_witness :
  In (recommend (Profile.new "Bia") dba) (analyze dba_advisor (Profile.new "Bia"))
  /\ positive_requirements dba
  /\ Recommendation.match_percentage (recommend (Profile.new "Bia") dba) = 0.
Proof.
  assert (Hin : In (recommend (Profile.new "Bia") dba)
                   (analyze dba_advisor (Profile.new "Bia")))
    by (apply (analyze_returns _ _ dba); vm_compute; pick_one).
  split; [exact Hin|]. split; [exact dba_positive|].
  exact (proj1 (empty_profile_scores_zero dba_advisor "Bia" _ Hin dba_positive)).
Defined.

Lemma surplus_witness :
  let r := recommend expert_profile dba in
  let r' := recommend guru_profile dba in
  Profile.get_score expert_profile "sql" <= Profile.get_score guru_profile "sql"
  /\ In r (analyze dba_advisor expert_profile)
  /\ In r' (analyze dba_advisor guru_profile)
  /\ Recommendation.match_percentage r' = Recommendation.match_percentage r
  /\ Recommendation.missing_competencies r'
     = Recommendation.missing_competencies r.
Proof.
  cbv zeta.
  assert (Hin' : In (recommend guru_profile dba)
                    (analyze dba_advisor guru_profile))
    by (apply (analyze_returns _ _ dba); vm_compute; pick_one).
  assert (Hup : Profile.get_score expert_profile "sql"
                <= Profile.get_score guru_profile "sql")
    by (vm_compute; discriminate).
  assert (Hcap : forall m k s,
            In (m, k, s) (Career.required_items dba) ->
            lower m = lower "sql" ->
            s <= Profile.get_score expert_profile "sql").
  { intros m k s [H|[]] _. injection H as <- <- <-. vm_compute. discriminate. }
  assert (Hsame : forall q, lower q <> lower "sql" ->
            Profile.get_score guru_profile q
            = Profile.get_score expert_profile q).
  { intros q Hq. unfold guru_profile, expert_profile.
    rewrite !get_score_add_other; [reflexivity| |];
      intros E; apply Hq; now rewrite <- E. }
  split; [exact Hup|]. split; [exact expert_returned|]. split; [exact Hin'|].
  exact (surplus_earns_nothing dba_advisor expert_profile guru_profile "sql"
           _ _ expert_returned Hin' eq_refl Hcap Hup Hsame).
Defined.

Lemma suggestions_witness :
  Recommendation.missing_competencies (recommend marina_profile dba) <> []
  /\ suggest_improvements (recommend marina_profile dba)
     = ["Aumentar sql em 8.0 pontos para a carreira de DBA."]
  /\ suggest_improvements (recommend expert_profile dba)
     = [satisfied_message].
Proof.
  assert (Hne : Recommendation.missing_competencies
                  (recommend marina_profile dba) <> [])
    by (vm_compute; discriminate).
  split; [exact Hne|]. split.
  - rewrite (proj1 (proj2 (proj2
               (suggestions_one_per_shortfall (recommend marina_profile dba))))
               Hne).
    vm_compute. reflexivity.
  - apply (proj2 (proj2 (proj2
             (suggestions_one_per_shortfall (recommend expert_profile dba))))).
    vm_compute. reflexivity.
Defined.

Lemma advice_witness :
  In (recommend expert_profile dba) (analyze dba_advisor expert_profile)
  /\ meets_all expert_profile dba
  /\ suggest_improvements (recommend expert_profile dba) = [satisfied_message].
Proof.
  split; [exact expert_returned|]. split; [exact expert_meets_all|].
  exact (proj2 (advice_says_satisfied_iff_all_met dba_advisor expert_profile _
                  expert_returned) expert_meets_all).
Defined.

Lemma default_advisor_witness :
  valid_profile marina_profile
  /\ exists adv,
       Catalog.build_default_advisor = inr adv
       /\ forall r, In r (analyze adv marina_profile) ->
            0 <= Recommendation.match_percentage r
            /\ Recommendation.match_percentage r <= 100.
Proof.
  split; [exact marina_valid|].
  destruct default_advisor_is_well_formed as [adv [E [_ [_ H]]]].
  exists adv. split; [exact E|].
  intros r Hr. exact (H marina_profile r marina_valid Hr).
Defined.
End ExampleFacts.
